(** * G7 vs Africa economic analysis: the ETL pipeline of [src/etl_pipeline.py]

    A shallow embedding of the extraction loop ([fetch_data]) and of the
    outlier pass ([detect_outliers_iqr]), with the properties the
    specification states about them.

    Modelling conventions.
    - Python exceptions are values of [exn]; a computation that may raise
      has type [result A].
    - A parsed JSON body is a value of [json], and the Python operations
      the pipeline applies to it ([len], subscripting, iteration, [int],
      [float]) are written out for every shape of value, including the
      shapes on which they raise.
    - In the model of the whole pipeline a float64 is the exact rational
      it denotes ([Q]): sums, differences and products are exact, and the
      non-finite values (inf, nan) have no counterpart, except that the
      NaN a quantile of an empty selection would be is [None].  The
      statements made there are about records whose computations are
      exact in binary64.
    - The outlier pass is modelled a second time on binary64 values
      (module [Binary64], on the primitive floats), with the rounding,
      the overflow and the non-finite values of the arithmetic, and with
      the quantile as numpy's linear method computes it.  The rule of
      strict comparisons is stated there.
    - Strings are ASCII.  [float] of a string reads the finite decimal
      literals as the rationals they denote; the rounding to binary64
      and the spellings of the non-finite values (inf, nan) are not
      modelled, and those spellings are rejected here.
    - A pandas DataFrame is its list of column labels together with its
      rows; boolean Series over the frame's index are predicates on rows. *)

From Stdlib Require Import List String Ascii Bool ZArith QArith Qround Lia Lqa Arith.
From Stdlib Require Import Permutation DecimalString.
Import ListNotations.

Set Warnings "-register-all".

Local Open Scope string_scope.
Local Open Scope list_scope.

(* ================================================================== *)
(** ** Exceptions and fallible computations *)

Inductive exn : Type :=
| KeyError
| IndexError
| TypeError
| ValueError
| OverflowError
| RequestException   (* future.result(): timeout, connection failure *)
| JSONDecodeError.   (* resp.json() on a body that is not JSON *)

Inductive result (A : Type) : Type :=
| Ok (a : A)
| Raise (e : exn).

Arguments Ok {A} a.
Arguments Raise {A} e.

Definition bind {A B : Type} (m : result A) (k : A -> result B) : result B :=
  match m with
  | Ok a => k a
  | Raise e => Raise e
  end.

Notation "x <- m ;; k" := (bind m (fun x => k))
  (at level 61, m at next level, right associativity).

Definition raises {A : Type} (m : result A) : Prop :=
  exists e, m = Raise e.

(* ================================================================== *)
(** ** JSON values as [resp.json()] returns them *)

Inductive json : Type :=
| JNull
| JBool (b : bool)
| JInt (n : Z)                        (* a number without fraction or exponent *)
| JFloat (q : Q)                      (* any other number *)
| JStr (s : string)
| JArr (items : list json)
| JObj (fields : list (string * json)).

Fixpoint lookup (key : string) (fields : list (string * json)) : option json :=
  match fields with
  | [] => None
  | (k, v) :: rest => if String.eqb k key then Some v else lookup key rest
  end.

(** [len(x)] *)
Definition py_len (x : json) : result nat :=
  match x with
  | JArr items => Ok (List.length items)
  | JObj fields => Ok (List.length fields)
  | JStr s => Ok (String.length s)
  | JNull | JBool _ | JInt _ | JFloat _ => Raise TypeError
  end.

(** [x[i]] for an integer index [i >= 0] *)
Definition py_getitem_int (x : json) (i : nat) : result json :=
  match x with
  | JArr items =>
      match nth_error items i with
      | Some v => Ok v
      | None => Raise IndexError
      end
  | JStr s =>
      match String.get i s with
      | Some c => Ok (JStr (String c EmptyString))
      | None => Raise IndexError
      end
  | JObj _ => Raise KeyError     (* the keys of a JSON object are strings *)
  | JNull | JBool _ | JInt _ | JFloat _ => Raise TypeError
  end.

(** [x[key]] for a string key *)
Definition py_getitem (x : json) (key : string) : result json :=
  match x with
  | JObj fields =>
      match lookup key fields with
      | Some v => Ok v
      | None => Raise KeyError
      end
  | JNull | JBool _ | JInt _ | JFloat _ | JStr _ | JArr _ => Raise TypeError
  end.

(** The sequence [for entry in x] runs over. *)
Definition py_iter (x : json) : result (list json) :=
  match x with
  | JArr items => Ok items
  | JObj fields => Ok (map (fun kv => JStr (fst kv)) fields)
  | JStr s => Ok (map (fun c => JStr (String c EmptyString)) (list_ascii_of_string s))
  | JNull | JBool _ | JInt _ | JFloat _ => Raise TypeError
  end.

(* ================================================================== *)
(** ** The builtins [int] and [float] *)

Definition is_space (c : ascii) : bool :=
  let n := nat_of_ascii c in
  ((9 <=? n) && (n <=? 13) || (n =? 32))%nat.

Fixpoint lstrip (l : list ascii) : list ascii :=
  match l with
  | c :: rest => if is_space c then lstrip rest else l
  | [] => []
  end.

Definition strip (l : list ascii) : list ascii :=
  rev (lstrip (rev (lstrip l))).

Definition digit_of (c : ascii) : option Z :=
  let n := nat_of_ascii c in
  if ((48 <=? n) && (n <=? 57))%nat then Some (Z.of_nat (n - 48)) else None.

(** A digit part: digits, optionally grouped by single underscores.
    Returns the value read so far, the number of digits, and the rest. *)
Fixpoint digitpart (acc : Z) (count : nat) (after_digit : bool) (l : list ascii)
  : option (Z * nat * list ascii) :=
  match l with
  | c :: rest =>
      match digit_of c with
      | Some d => digitpart (10 * acc + d) (S count) true rest
      | None =>
          if Ascii.eqb c "_" then
            if after_digit then
              match rest with
              | c' :: _ =>
                  match digit_of c' with
                  | Some _ => digitpart acc count false rest
                  | None => None
                  end
              | [] => None
              end
            else None
          else if after_digit then Some (acc, count, l) else None
      end
  | [] => if after_digit then Some (acc, count, []) else None
  end.

Definition sign_of (l : list ascii) : Z * list ascii :=
  match l with
  | c :: rest =>
      if Ascii.eqb c "-" then (-1, rest)
      else if Ascii.eqb c "+" then (1, rest)
      else (1, l)
  | [] => (1, [])
  end%Z.

(** [int(s)] for a string: surrounding whitespace, a sign, decimal digits. *)
Definition int_of_string (s : string) : result Z :=
  let (sg, body) := sign_of (strip (list_ascii_of_string s)) in
  match digitpart 0 0 false body with
  | Some (n, _, []) => Ok (sg * n)%Z
  | _ => Raise ValueError
  end.

(** [int(x)] *)
Definition py_int (x : json) : result Z :=
  match x with
  | JInt n => Ok n
  | JBool b => Ok (if b then 1 else 0)%Z
  | JFloat q => Ok (Z.quot (Qnum q) (Zpos (Qden q)))   (* towards zero *)
  | JStr s => int_of_string s
  | JNull | JArr _ | JObj _ => Raise TypeError
  end.

Definition pow10 (e : Z) : Q := Qpower (10 # 1) e.

(** The optional exponent of a float literal; the rest must be empty. *)
Definition exponent_of (l : list ascii) : option Z :=
  match l with
  | [] => Some 0%Z
  | c :: rest =>
      if Ascii.eqb c "e" || Ascii.eqb c "E" then
        let (sg, body) := sign_of rest in
        match digitpart 0 0 false body with
        | Some (n, _, []) => Some (sg * n)%Z
        | _ => None
        end
      else None
  end.

(** The fraction after the point: its value and what follows it. *)
Definition fraction_of (l : list ascii) : option (Q * list ascii) :=
  match l with
  | c :: rest =>
      match digit_of c with
      | Some _ =>
          match digitpart 0 0 false l with
          | Some (f, k, rest') => Some (inject_Z f * pow10 (- Z.of_nat k), rest')
          | None => None
          end
      | None => Some (0, l)
      end
  | [] => Some (0, [])
  end.

(** [float(s)] for a string holding a finite decimal literal:
    surrounding whitespace, a sign, digits with an optional fraction (or
    a fraction alone) and an optional exponent. *)
Definition float_of_string (s : string) : result Q :=
  let (sg, body) := sign_of (strip (list_ascii_of_string s)) in
  let mantissa :=
    match body with
    | c :: rest =>
        if Ascii.eqb c "." then
          match digitpart 0 0 false rest with
          | Some (f, k, rest') => Some (inject_Z f * pow10 (- Z.of_nat k), rest')
          | None => None
          end
        else
          match digitpart 0 0 false body with
          | Some (n, _, c' :: rest') =>
              if Ascii.eqb c' "." then
                match fraction_of rest' with
                | Some (f, rest'') => Some (inject_Z n + f, rest'')
                | None => None
                end
              else Some (inject_Z n, c' :: rest')
          | Some (n, _, []) => Some (inject_Z n, [])
          | None => None
          end
    | [] => None
    end in
  match mantissa with
  | Some (m, rest) =>
      match exponent_of rest with
      | Some e => Ok (Qred (inject_Z sg * m * pow10 e))
      | None => Raise ValueError
      end
  | None => Raise ValueError
  end.

(** [float(x)]; an integer that rounds to 2^1024 or beyond is too large
    to convert. *)
Definition py_float (x : json) : result Q :=
  match x with
  | JFloat q => Ok q
  | JInt n =>
      if (Z.abs n <? 2 ^ 1024 - 2 ^ 970)%Z then Ok (inject_Z n)
      else Raise OverflowError
  | JBool b => Ok (if b then 1 else 0)
  | JStr s => float_of_string s
  | JNull | JArr _ | JObj _ => Raise TypeError
  end.

(* ================================================================== *)
(** ** Configuration *)

Definition START_YEAR : Z := 2000.
Definition END_YEAR : Z := 2024.

(** A Python dict is kept as the list of its items in insertion order;
    its keys are pairwise distinct. *)
Definition groups_t : Type := list (string * list string).
Definition indicators_t : Type := list (string * string).

Definition COUNTRY_GROUPS : groups_t :=
  [ ("G7", ["USA"; "GBR"; "DEU"; "FRA"; "ITA"; "CAN"; "JPN"]);
    ("AFRICA_TOP5", ["NGA"; "ZAF"; "EGY"; "DZA"; "MAR"]) ].

Definition INDICATORS : indicators_t :=
  [ ("NY.GDP.MKTP.KD.ZG", "GDP Growth (%)");
    ("FP.CPI.TOTL.ZG", "Inflation (%)");
    ("BX.KLT.DINV.WD.GD.ZS", "FDI (% of GDP)");
    ("FS.AST.PRVT.GD.ZS", "Private Credit (% of GDP)");
    ("SL.UEM.TOTL.ZS", "Unemployment (%)");
    ("GC.DOD.TOTL.GD.ZS", "Central Gov Debt (% of GDP)");
    ("EG.ELC.ACCS.ZS", "Access to Electricity (%)");
    ("NE.EXP.GNFS.ZS", "Exports (% of GDP)") ].

Definition dict_ok {V : Type} (d : list (string * V)) : Prop :=
  NoDup (map fst d).

(* ================================================================== *)
(** ** Observations: the dicts appended to [all_data] *)

Record Observation : Type := mkObservation {
  country : json;            (* entry["country"]["value"], as received *)
  country_code : json;       (* entry["country"]["id"], as received *)
  country_group : string;
  indicator_code : string;
  indicator_name : string;
  year : Z;
  value : Q
}.

(* ================================================================== *)
(** ** fetch_data: the task list and the submitted requests *)

(** One element of [futures] without its future:
    (country_code, group, ind_code, ind_name). *)
Record FetchTask : Type := mkTask {
  t_country_code : string;
  t_group : string;
  t_ind_code : string;
  t_ind_name : string
}.

(** The first loop: [tasks.append((country, group))]. *)
Definition tasks (groups : groups_t) : list (string * string) :=
  flat_map (fun gc => map (fun c => (c, fst gc)) (snd gc)) groups.

(** The second loop, one request per task and indicator. *)
Definition requests (groups : groups_t) (indicators : indicators_t)
  : list FetchTask :=
  flat_map (fun cg =>
              map (fun ind => mkTask (fst cg) (snd cg) (fst ind) (snd ind))
                  indicators)
           (tasks groups).

(** What a submitted request turns out to be when the main thread reads
    it: [future.result()] raises, or [resp.json()] raises, or the body
    parses. *)
Inductive outcome : Type :=
| ResultRaises (e : exn)
| JsonRaises (e : exn)
| Body (data : json).

(** The network: the outcome of the request submitted in position [i]. *)
Definition network : Type := nat -> outcome.

Definition futures (groups : groups_t) (indicators : indicators_t)
  (net : network) : list (outcome * FetchTask) :=
  let reqs := requests groups indicators in
  combine (map net (seq 0 (List.length reqs))) reqs.

(** The dict literal of lines 75-83, its items evaluated in order. *)
Definition observation_of (t : FetchTask) (entry : json) : result Observation :=
  c <- py_getitem entry "country" ;;
  name <- py_getitem c "value" ;;
  c' <- py_getitem entry "country" ;;
  code <- py_getitem c' "id" ;;
  d <- py_getitem entry "date" ;;
  y <- py_int d ;;
  v <- py_getitem entry "value" ;;
  x <- py_float v ;;
  Ok (mkObservation name code (t_group t) (t_ind_code t) (t_ind_name t) y x).

(** One turn of [for entry in data[1]]: nothing for a null value, one
    observation otherwise. *)
Definition entry_step (t : FetchTask) (entry : json)
  : result (option Observation) :=
  v <- py_getitem entry "value" ;;
  match v with
  | JNull => Ok None
  | _ => o <- observation_of t entry ;; Ok (Some o)
  end.

(** The inner loop, threading [all_data]: an exception leaves the loop
    with what was appended before it. *)
Fixpoint for_entries (t : FetchTask) (entries : list json)
  (all_data : list Observation) : list Observation * result unit :=
  match entries with
  | [] => (all_data, Ok tt)
  | entry :: rest =>
      match entry_step t entry with
      | Ok None => for_entries t rest all_data
      | Ok (Some o) => for_entries t rest (all_data ++ [o])
      | Raise e => (all_data, Raise e)
      end
  end.

(** The body of the [try] once the body is parsed. *)
Definition try_body (t : FetchTask) (data : json)
  (all_data : list Observation) : list Observation * result unit :=
  match py_len data with
  | Raise e => (all_data, Raise e)
  | Ok n =>
      if (n <? 2)%nat then (all_data, Ok tt)          (* continue *)
      else
        match (d1 <- py_getitem_int data 1 ;; py_iter d1) with
        | Raise e => (all_data, Raise e)
        | Ok entries => for_entries t entries all_data
        end
  end.

(** One turn of [for future, ... in futures]: the [except] clause
    prints and goes on with the next future. *)
Definition handle_future (all_data : list Observation)
  (f : outcome * FetchTask) : list Observation :=
  match fst f with
  | ResultRaises _ => all_data
  | JsonRaises _ => all_data
  | Body data => fst (try_body (snd f) data all_data)
  end.

Definition all_data (groups : groups_t) (indicators : indicators_t)
  (net : network) : list Observation :=
  fold_left handle_future (futures groups indicators net) [].

(* ================================================================== *)
(** ** DataFrames *)

Record Row : Type := mkRow {
  obs : Observation;
  is_outlier : option bool       (* None until the column is assigned *)
}.

Record DataFrame : Type := mkDataFrame {
  columns : list string;
  rows : list Row
}.

Definition observation_columns : list string :=
  ["country"; "country_code"; "country_group"; "indicator_code";
   "indicator_name"; "year"; "value"].

(** [pd.DataFrame(records)] for a list of dicts with the keys above: the
    columns are the keys met in the records, so there is none when the
    list is empty. *)
Definition pd_DataFrame (records : list Observation) : DataFrame :=
  mkDataFrame
    (match records with [] => [] | _ :: _ => observation_columns end)
    (map (fun o => mkRow o None) records).

Definition fetch_data (groups : groups_t) (indicators : indicators_t)
  (net : network) : DataFrame :=
  pd_DataFrame (all_data groups indicators net).

(* ================================================================== *)
(** ** Quantiles *)

Fixpoint insert_sorted (x : Q) (l : list Q) : list Q :=
  match l with
  | [] => [x]
  | y :: rest => if Qle_bool x y then x :: l else y :: insert_sorted x rest
  end.

Definition sort (l : list Q) : list Q :=
  fold_right insert_sorted [] l.

(** [Series.quantile(q)] with pandas' default interpolation, which is
    linear between order statistics.  With the values sorted and [n] of
    them, the quantile [q] sits at position [q * (n - 1)]; it is the
    order statistic below that position plus the fractional part of the
    position times the gap to the next one.  The quantile of an empty
    selection is NaN, here [None]. *)
Definition quantile (values : list Q) (q : Q) : option Q :=
  match values with
  | [] => None
  | _ :: _ =>
      let sorted := sort values in
      let n := List.length values in
      let pos := q * inject_Z (Z.of_nat (n - 1)) in
      let below := Z.to_nat (Qfloor pos) in
      let above := Nat.min (S below) (n - 1) in
      let gamma := pos - inject_Z (Qfloor pos) in
      let a := nth below sorted 0 in
      let b := nth above sorted 0 in
      Some (a + (b - a) * gamma)
  end.

Definition Qlt_bool (x y : Q) : bool := negb (Qle_bool y x).

(* ================================================================== *)
(** ** detect_outliers_iqr *)

Definition has_column (df : DataFrame) (label : string) : bool :=
  existsb (String.eqb label) (columns df).

(** [df[label] = v] keeps the position of an existing column and puts a
    new one last. *)
Definition with_column (label : string) (cols : list string) : list string :=
  if existsb (String.eqb label) cols then cols else cols ++ [label].

(** [df["is_outlier"] = False] *)
Definition assign_is_outlier_False (df : DataFrame) : DataFrame :=
  mkDataFrame (with_column "is_outlier" (columns df))
              (map (fun r => mkRow (obs r) (Some false)) (rows df)).

(** [df["indicator_code"]] *)
Definition column_indicator_code (df : DataFrame) : result (list string) :=
  if has_column df "indicator_code"
  then Ok (map (fun r => indicator_code (obs r)) (rows df))
  else Raise KeyError.

(** [df["value"]] restricted to the rows of a mask; [df.loc[mask, "value"]]. *)
Definition loc_value (df : DataFrame) (mask : Row -> bool) : result (list Q) :=
  if has_column df "value"
  then Ok (map (fun r => value (obs r)) (filter mask (rows df)))
  else Raise KeyError.

(** [Series.unique()]: the distinct values in order of first appearance. *)
Fixpoint unique (l : list string) : list string :=
  match l with
  | [] => []
  | x :: rest => x :: filter (fun y => negb (String.eqb y x)) (unique rest)
  end.

(** [df.loc[m, "is_outlier"] = True] *)
Definition loc_assign_is_outlier_True (df : DataFrame) (m : Row -> bool)
  : DataFrame :=
  mkDataFrame (with_column "is_outlier" (columns df))
              (map (fun r => if m r then mkRow (obs r) (Some true) else r)
                   (rows df)).

(** [(df["value"] < lower) | (df["value"] > upper)], where the bounds
    come from the quartiles; a comparison with NaN is False. *)
Definition outlier_rule (values : list Q) (v : Q) : bool :=
  match quantile values (1 # 4), quantile values (3 # 4) with
  | Some Q1, Some Q3 =>
      let IQR := Q3 - Q1 in
      let lower := Q1 - (3 # 2) * IQR in
      let upper := Q3 + (3 # 2) * IQR in
      Qlt_bool v lower || Qlt_bool upper v
  | _, _ => false
  end.

(** The body of [for indicator in df["indicator_code"].unique()]. *)
Definition iqr_step (df : DataFrame) (indicator : string) : result DataFrame :=
  let mask := fun r => String.eqb (indicator_code (obs r)) indicator in
  values <- loc_value df mask ;;
  _ <- (if has_column df "value" then Ok tt else Raise KeyError) ;;
  let outlier_mask := fun r => outlier_rule values (value (obs r)) in
  Ok (loc_assign_is_outlier_True df (fun r => mask r && outlier_mask r)).

Fixpoint for_indicators (df : DataFrame) (indicators : list string)
  : result DataFrame :=
  match indicators with
  | [] => Ok df
  | indicator :: rest =>
      df' <- iqr_step df indicator ;; for_indicators df' rest
  end.

Definition detect_outliers_iqr (df : DataFrame) : result DataFrame :=
  let df := assign_is_outlier_False df in
  codes <- column_indicator_code df ;;
  for_indicators df (unique codes).

(* ================================================================== *)
(** ** The main program *)

(** How a run ends: the frame handed to [load_to_database], or the
    exception that reached the top level before the load. *)
Inductive run_result : Type :=
| Loaded (df_clean : DataFrame)
| Aborted (e : exn).

Definition main (groups : groups_t) (indicators : indicators_t)
  (net : network) : run_result :=
  let df_raw := fetch_data groups indicators net in
  match detect_outliers_iqr df_raw with
  | Ok df_clean => Loaded df_clean
  | Raise e => Aborted e
  end.

(* ================================================================== *)
(** * Properties of the outlier pass *)

Module Detector.

#[local] Arguments String.eqb : simpl never.

(** The value subsequence of one indicator. *)
Definition rows_of (indicator : string) (rs : list Row) : list Row :=
  filter (fun r => String.eqb (indicator_code (obs r)) indicator) rs.

Definition values_of (indicator : string) (rs : list Row) : list Q :=
  map (fun r => value (obs r)) (rows_of indicator rs).

(** The flag the quartile rule gives a row among the rows [rs]. *)
Definition flag_in (rs : list Row) (r : Row) : bool :=
  outlier_rule (values_of (indicator_code (obs r)) rs) (value (obs r)).

(** The frame the pass is shown to return. *)
Definition flagged (df : DataFrame) : DataFrame :=
  mkDataFrame (with_column "is_outlier" (columns df))
              (map (fun r => mkRow (obs r) (Some (flag_in (rows df) r)))
                   (rows df)).

(** The schema the pass reads. *)
Definition readable (df : DataFrame) : Prop :=
  has_column df "indicator_code" = true /\ has_column df "value" = true.

(** The rows after the indicators [seen] have had their turn. *)
Definition partial_rows (seen : list string) (rs : list Row) : list Row :=
  map (fun r =>
         mkRow (obs r)
               (Some (existsb (String.eqb (indicator_code (obs r))) seen
                      && flag_in rs r)))
      rs.

Lemma with_column_has (label : string) (cols : list string) :
  existsb (String.eqb label) (with_column label cols) = true.
Proof.
  unfold with_column.
  destruct (existsb (String.eqb label) cols) eqn:E; [exact E|].
  rewrite existsb_app. simpl. rewrite String.eqb_refl.
  now rewrite orb_true_r.
Qed.

Lemma with_column_idem (label : string) (cols : list string) :
  with_column label (with_column label cols) = with_column label cols.
Proof.
  unfold with_column at 1. now rewrite with_column_has.
Qed.

Lemma with_column_other (label other : string) (cols : list string) :
  String.eqb other label = false ->
  existsb (String.eqb other) (with_column label cols)
  = existsb (String.eqb other) cols.
Proof.
  intros H. unfold with_column.
  destruct (existsb (String.eqb label) cols); [reflexivity|].
  rewrite existsb_app. simpl. rewrite H. now rewrite !orb_false_r.
Qed.

Lemma values_of_map (g : Row -> Row) (indicator : string) (rs : list Row) :
  (forall r, obs (g r) = obs r) ->
  values_of indicator (map g rs) = values_of indicator rs.
Proof.
  intros Hg. unfold values_of, rows_of.
  induction rs as [|r rs IH]; [reflexivity|].
  simpl. rewrite Hg.
  destruct (String.eqb (indicator_code (obs r)) indicator); simpl.
  - now rewrite Hg, IH.
  - exact IH.
Qed.

Lemma in_unique (x : string) (l : list string) :
  In x (unique l) <-> In x l.
Proof.
  induction l as [|y l IH]; [reflexivity|].
  simpl. rewrite filter_In, IH.
  destruct (String.eqb_spec x y) as [->|Hne]; simpl.
  - tauto.
  - intuition congruence.
Qed.

Lemma NoDup_unique (l : list string) : NoDup (unique l).
Proof.
  induction l as [|y l IH]; simpl; constructor.
  - rewrite filter_In, String.eqb_refl. simpl. intros [_ H]. discriminate.
  - now apply NoDup_filter.
Qed.

(** One turn of the loop moves [partial_rows] one indicator further. *)
Lemma iqr_step_partial (cols : list string) (rs : list Row)
      (seen : list string) (a : string) :
  existsb (String.eqb "is_outlier") cols = true ->
  iqr_step (mkDataFrame cols (partial_rows seen rs)) a
  = if existsb (String.eqb "value") cols
    then Ok (mkDataFrame cols (partial_rows (a :: seen) rs))
    else Raise KeyError.
Proof.
  intros Hcol. unfold iqr_step, loc_value, has_column. simpl.
  destruct (existsb (String.eqb "value") cols); [|reflexivity].
  simpl. unfold loc_assign_is_outlier_True, with_column. simpl.
  rewrite Hcol. f_equal. f_equal.
  unfold partial_rows. rewrite map_map.
  apply map_ext. intros r. simpl.
  match goal with
  | |- context [outlier_rule ?v _] =>
      replace v with (values_of a rs)
        by (symmetry; apply (values_of_map _ a rs); reflexivity)
  end.
  unfold flag_in.
  destruct (String.eqb_spec (indicator_code (obs r)) a) as [->|Hne]; simpl.
  - destruct (outlier_rule (values_of a rs) (value (obs r))).
    + reflexivity.
    + now rewrite andb_false_r.
  - reflexivity.
Qed.

Lemma for_indicators_partial (cols : list string) (rs : list Row)
      (todo seen : list string) :
  existsb (String.eqb "is_outlier") cols = true ->
  for_indicators (mkDataFrame cols (partial_rows seen rs)) todo
  = if existsb (String.eqb "value") cols || (List.length todo =? 0)%nat
    then Ok (mkDataFrame cols (partial_rows (rev todo ++ seen) rs))
    else Raise KeyError.
Proof.
  intros Hcol. revert seen.
  induction todo as [|a todo IH]; intros seen; simpl.
  - now rewrite orb_true_r.
  - rewrite iqr_step_partial by exact Hcol.
    destruct (existsb (String.eqb "value") cols) eqn:Hv; simpl; [|reflexivity].
    rewrite IH. simpl. now rewrite <- app_assoc.
Qed.

Lemma partial_rows_nil (rs : list Row) :
  partial_rows [] rs = map (fun r => mkRow (obs r) (Some false)) rs.
Proof. reflexivity. Qed.

Lemma partial_rows_all (seen : list string) (rs : list Row) :
  (forall r, In r rs -> In (indicator_code (obs r)) seen) ->
  partial_rows seen rs
  = map (fun r => mkRow (obs r) (Some (flag_in rs r))) rs.
Proof.
  intros H. unfold partial_rows. apply map_ext_in. intros r Hr.
  assert (E : existsb (String.eqb (indicator_code (obs r))) seen = true).
  { apply existsb_exists. exists (indicator_code (obs r)).
    split; [now apply H | apply String.eqb_refl]. }
  now rewrite E.
Qed.

Lemma codes_partial_rows (seen : list string) (rs : list Row) :
  map (fun r => indicator_code (obs r)) (partial_rows seen rs)
  = map (fun r => indicator_code (obs r)) rs.
Proof. unfold partial_rows. now rewrite map_map. Qed.

(** The pass in closed form: it raises KeyError exactly when a column
    it reads is missing, and otherwise returns [flagged df]. *)
Lemma detect_outliers_iqr_eq (df : DataFrame) :
  detect_outliers_iqr df
  = if has_column df "indicator_code"
       && (has_column df "value" || (List.length (rows df) =? 0)%nat)
    then Ok (flagged df)
    else Raise KeyError.
Proof.
  destruct df as [cols rs].
  unfold detect_outliers_iqr, column_indicator_code, has_column,
    assign_is_outlier_False. simpl.
  rewrite with_column_other by reflexivity.
  destruct (existsb (String.eqb "indicator_code") cols); simpl; [|reflexivity].
  rewrite <- partial_rows_nil.
  rewrite for_indicators_partial by apply with_column_has.
  rewrite with_column_other by reflexivity.
  rewrite codes_partial_rows.
  assert (Hlen : (List.length
                    (unique (map (fun r => indicator_code (obs r)) rs)) =? 0)%nat
                 = (List.length rs =? 0)%nat).
  { destruct rs; reflexivity. }
  rewrite Hlen.
  destruct (existsb (String.eqb "value") cols || (List.length rs =? 0)%nat);
    [|reflexivity].
  unfold flagged. simpl. f_equal. f_equal.
  apply partial_rows_all. intros r Hr.
  rewrite app_nil_r, <- in_rev, in_unique.
  apply in_map_iff. now exists r.
Qed.

Lemma detect_outliers_iqr_readable (df : DataFrame) :
  readable df -> detect_outliers_iqr df = Ok (flagged df).
Proof.
  intros [Hi Hv]. now rewrite detect_outliers_iqr_eq, Hi, Hv.
Qed.

End Detector.

(* ================================================================== *)
(** * Properties of the quantile *)

Module Quantile.

Local Open Scope Q_scope.

(** Two value sequences that agree as rationals, entry by entry. *)
Definition same_values (l l' : list Q) : Prop := Forall2 Qeq l l'.

Definition same_quantile (a b : option Q) : Prop :=
  match a, b with
  | Some x, Some y => x == y
  | None, None => True
  | _, _ => False
  end.

Lemma same_values_refl (l : list Q) : same_values l l.
Proof. induction l; constructor; [reflexivity | assumption]. Qed.

Lemma insert_sorted_compat (x x' : Q) (l l' : list Q) :
  x == x' -> same_values l l' ->
  same_values (insert_sorted x l) (insert_sorted x' l').
Proof.
  intros Hx H. induction H as [|y y' l l' Hy H IH]; simpl.
  - repeat constructor. exact Hx.
  - rewrite (Qleb_comp x x' Hx y y' Hy).
    destruct (Qle_bool x' y'); repeat (constructor; try assumption).
Qed.

Lemma sort_compat (l l' : list Q) :
  same_values l l' -> same_values (sort l) (sort l').
Proof.
  intros H. induction H; simpl.
  - constructor.
  - now apply insert_sorted_compat.
Qed.

Lemma nth_compat (l l' : list Q) (i : nat) :
  same_values l l' -> nth i l 0 == nth i l' 0.
Proof.
  intros H. revert i.
  induction H as [|y y' l l' Hy H IH]; intros [|i]; simpl;
    try reflexivity; auto.
Qed.

Lemma quantile_compat (l l' : list Q) (q : Q) :
  same_values l l' -> same_quantile (quantile l q) (quantile l' q).
Proof.
  intros H. pose proof (Forall2_length H) as Hlen.
  pose proof (sort_compat _ _ H) as Hs.
  destruct H as [|y y' l l' Hy H]; [exact I|].
  unfold quantile. rewrite <- Hlen. cbv zeta. unfold same_quantile.
  rewrite (nth_compat _ _ _ Hs), (nth_compat _ _ (Nat.min _ _) Hs).
  reflexivity.
Qed.

Lemma Qlt_bool_iff (x y : Q) : Qlt_bool x y = true <-> x < y.
Proof.
  unfold Qlt_bool. rewrite negb_true_iff, <- not_true_iff_false, Qle_bool_iff.
  split; [apply Qnot_le_lt | apply Qlt_not_le].
Qed.

Lemma Qlt_bool_compat (x x' y y' : Q) :
  x == x' -> y == y' -> Qlt_bool x y = Qlt_bool x' y'.
Proof.
  intros Hx Hy. unfold Qlt_bool. now rewrite (Qleb_comp y y' Hy x x' Hx).
Qed.

Lemma outlier_rule_compat (l l' : list Q) (v v' : Q) :
  same_values l l' -> v == v' -> outlier_rule l v = outlier_rule l' v'.
Proof.
  intros H Hv. unfold outlier_rule.
  pose proof (quantile_compat l l' (1 # 4) H) as H1.
  pose proof (quantile_compat l l' (3 # 4) H) as H3.
  destruct (quantile l (1 # 4)) as [a|], (quantile l' (1 # 4)) as [a'|];
    simpl in H1; try contradiction; [|reflexivity].
  destruct (quantile l (3 # 4)) as [b|], (quantile l' (3 # 4)) as [b'|];
    simpl in H3; try contradiction; [|reflexivity].
  f_equal; apply Qlt_bool_compat; try assumption.
  - now rewrite H1, H3.
  - now rewrite H1, H3.
Qed.

(** *** The sorted values *)

Lemma insert_sorted_length (x : Q) (l : list Q) :
  List.length (insert_sorted x l) = S (List.length l).
Proof.
  induction l as [|y l IH]; simpl; [reflexivity|].
  destruct (Qle_bool x y); simpl; congruence.
Qed.

Lemma sort_length (l : list Q) : List.length (sort l) = List.length l.
Proof.
  induction l as [|x l IH]; simpl; [reflexivity|].
  now rewrite insert_sorted_length, IH.
Qed.

(** Every later element is at least every earlier one. *)
Inductive ascending : list Q -> Prop :=
| ascending_nil : ascending []
| ascending_cons (x : Q) (l : list Q) :
    Forall (Qle x) l -> ascending l -> ascending (x :: l).

Lemma insert_sorted_Forall (P : Q -> Prop) (x : Q) (l : list Q) :
  P x -> Forall P l -> Forall P (insert_sorted x l).
Proof.
  intros Hx H. induction H as [|y l Hy H IH]; simpl.
  - now repeat constructor.
  - destruct (Qle_bool x y); repeat (constructor; try assumption).
Qed.

Lemma insert_sorted_ascending (x : Q) (l : list Q) :
  ascending l -> ascending (insert_sorted x l).
Proof.
  intros H. induction H as [|y l Hy H IH]; simpl.
  - repeat constructor.
  - destruct (Qle_bool x y) eqn:E.
    + apply Qle_bool_iff in E. constructor.
      * constructor; [exact E|].
        eapply Forall_impl; [|exact Hy].
        intros z Hz. now apply Qle_trans with y.
      * now constructor.
    + constructor; [|exact IH].
      apply insert_sorted_Forall; [|exact Hy].
      apply Qlt_le_weak, Qnot_le_lt.
      intros Hle. apply Qle_bool_iff in Hle. congruence.
Qed.

Lemma sort_ascending (l : list Q) : ascending (sort l).
Proof.
  induction l as [|x l IH]; simpl.
  - constructor.
  - now apply insert_sorted_ascending.
Qed.

Lemma ascending_nth (l : list Q) (i j : nat) :
  ascending l -> (i <= j)%nat -> (j < List.length l)%nat ->
  nth i l 0 <= nth j l 0.
Proof.
  intros H. revert i j.
  induction H as [|x l Hx H IH]; intros i j Hij Hj; simpl in Hj; [lia|].
  destruct i as [|i], j as [|j]; simpl; try lia.
  - apply Qle_refl.
  - rewrite Forall_forall in Hx. apply Hx, nth_In. lia.
  - apply IH; lia.
Qed.


(** *** The position of a quantile and the interpolation *)

Lemma position_bounds (p : Q) (m : nat) :
  0 <= p -> p <= 1 ->
  0 <= p * inject_Z (Z.of_nat m)
  /\ p * inject_Z (Z.of_nat m) <= inject_Z (Z.of_nat m).
Proof.
  intros H0 H1.
  assert (0 <= inject_Z (Z.of_nat m)).
  { change 0 with (inject_Z 0). rewrite <- Zle_Qle. lia. }
  split; nra.
Qed.

Lemma floor_bounds (x : Q) (m : nat) :
  0 <= x -> x <= inject_Z (Z.of_nat m) ->
  (0 <= Qfloor x <= Z.of_nat m)%Z.
Proof.
  intros H0 Hm. split.
  - change 0%Z with (Qfloor 0). now apply Qfloor_resp_le.
  - rewrite <- (Qfloor_Z (Z.of_nat m)). now apply Qfloor_resp_le.
Qed.

Lemma fraction_bounds (x : Q) :
  0 <= x - inject_Z (Qfloor x) /\ x - inject_Z (Qfloor x) <= 1.
Proof.
  pose proof (Qfloor_le x) as Hlo.
  pose proof (Qlt_floor x) as Hhi.
  rewrite inject_Z_plus in Hhi. change (inject_Z 1) with 1 in Hhi.
  split; lra.
Qed.

Lemma lerp_bounds (a b g : Q) :
  a <= b -> 0 <= g -> g <= 1 ->
  a <= a + (b - a) * g /\ a + (b - a) * g <= b.
Proof. intros. split; nra. Qed.

Lemma lerp_mono (a b g h : Q) :
  a <= b -> g <= h -> a + (b - a) * g <= a + (b - a) * h.
Proof. intros. nra. Qed.

(** In exact arithmetic a larger quantile of the same values is not
    smaller.  (Binary64 can overflow between two order statistics, and
    then this fails: see [overflow_values].) *)
Lemma quantile_monotone (l : list Q) (p q a b : Q) :
  0 <= p -> p <= q -> q <= 1 ->
  quantile l p = Some a -> quantile l q = Some b -> a <= b.
Proof.
  intros Hp Hpq Hq Ha Hb.
  destruct l as [|x l]; [discriminate|].
  unfold quantile in Ha, Hb. cbv zeta in Ha, Hb.
  set (n := List.length (x :: l)) in *.
  set (m := (n - 1)%nat) in *.
  set (s := sort (x :: l)) in *.
  assert (Hs : ascending s) by apply sort_ascending.
  assert (Hn : List.length s = S m).
  { unfold s, m, n. rewrite sort_length. simpl. lia. }
  assert (Hp1 : p <= 1) by lra.
  assert (Hq0 : 0 <= q) by lra.
  destruct (position_bounds p m Hp Hp1) as [Pp0 Ppm].
  destruct (position_bounds q m Hq0 Hq) as [Pq0 Pqm].
  set (P := p * inject_Z (Z.of_nat m)) in *.
  set (R := q * inject_Z (Z.of_nat m)) in *.
  assert (HPR : P <= R).
  { unfold P, R.
    assert (0 <= inject_Z (Z.of_nat m)).
    { change 0 with (inject_Z 0). rewrite <- Zle_Qle. lia. }
    nra. }
  pose proof (floor_bounds P m Pp0 Ppm) as FP.
  pose proof (floor_bounds R m Pq0 Pqm) as FR.
  pose proof (Qfloor_resp_le P R HPR) as Fle.
  destruct (fraction_bounds P) as [GP0 GP1].
  destruct (fraction_bounds R) as [GR0 GR1].
  set (i := Z.to_nat (Qfloor P)) in *.
  set (j := Z.to_nat (Qfloor R)) in *.
  assert (Hi : (i <= m)%nat) by (unfold i; lia).
  assert (Hj : (j <= m)%nat) by (unfold j; lia).
  assert (Hij : (i <= j)%nat) by (unfold i, j; lia).
  assert (Hai : nth i s 0 <= nth (Nat.min (S i) m) s 0)
    by (apply ascending_nth; [exact Hs | lia | lia]).
  assert (Haj : nth j s 0 <= nth (Nat.min (S j) m) s 0)
    by (apply ascending_nth; [exact Hs | lia | lia]).
  match type of Ha with Some ?u = _ => assert (Ea : a = u) by congruence end.
  match type of Hb with Some ?u = _ => assert (Eb : b = u) by congruence end.
  rewrite Ea, Eb. clear Ha Hb Ea Eb.
  destruct (Nat.eq_dec i j) as [E|NE].
  - assert (EZ : Qfloor P = Qfloor R) by (unfold i, j in E; lia).
    rewrite <- E, <- EZ.
    apply lerp_mono; [exact Hai | lra].
  - apply Qle_trans with (nth (Nat.min (S i) m) s 0);
      [now apply lerp_bounds|].
    apply Qle_trans with (nth j s 0);
      [apply ascending_nth; [exact Hs | lia | lia] | now apply lerp_bounds].
Qed.

End Quantile.

(* ================================================================== *)
(** * The outlier pass on the frames the pipeline builds *)

Module Flags.

Import Detector Quantile.

#[local] Arguments String.eqb : simpl never.

Lemma rows_pd_DataFrame (records : list Observation) :
  rows (pd_DataFrame records) = map (fun o => mkRow o None) records.
Proof. reflexivity. Qed.

Lemma obs_pd_DataFrame (records : list Observation) :
  map obs (rows (pd_DataFrame records)) = records.
Proof.
  rewrite rows_pd_DataFrame, map_map. simpl. apply map_id.
Qed.

Lemma pd_DataFrame_readable (records : list Observation) :
  records <> [] -> readable (pd_DataFrame records).
Proof.
  destruct records as [|o records]; [congruence|].
  intros _. split; reflexivity.
Qed.

Lemma rows_of_map (g : Row -> Row) (A : string) (rs : list Row) :
  (forall r, obs (g r) = obs r) ->
  rows_of A (map g rs) = map g (rows_of A rs).
Proof.
  intros Hg. unfold rows_of.
  induction rs as [|r rs IH]; [reflexivity|].
  simpl. rewrite Hg.
  destruct (String.eqb (indicator_code (obs r)) A); simpl; now rewrite IH.
Qed.

Lemma rows_of_flagged (A : string) (df : DataFrame) :
  rows_of A (rows (flagged df))
  = map (fun r => mkRow (obs r) (Some (flag_in (rows df) r)))
        (rows_of A (rows df)).
Proof.
  unfold flagged. cbn [rows]. now apply rows_of_map.
Qed.

(** The flags of one indicator's rows are the quartile rule applied to
    that indicator's values, one by one. *)
Lemma flags_of_indicator (A : string) (df : DataFrame) :
  map is_outlier (rows_of A (rows (flagged df)))
  = map (fun v => Some (outlier_rule (values_of A (rows df)) v))
        (values_of A (rows df)).
Proof.
  rewrite rows_of_flagged. unfold values_of. rewrite !map_map. simpl.
  apply map_ext_in. intros r Hr.
  unfold rows_of in Hr. apply filter_In in Hr. destruct Hr as [_ Hr].
  apply String.eqb_eq in Hr. unfold flag_in. now rewrite Hr.
Qed.

Lemma flags_compat (vs ws l l' : list Q) :
  same_values vs ws -> same_values l l' ->
  map (fun v => Some (outlier_rule vs v)) l
  = map (fun v => Some (outlier_rule ws v)) l'.
Proof.
  intros H Hl. induction Hl as [|v v' l l' Hv Hl IH]; simpl; [reflexivity|].
  now rewrite IH, (outlier_rule_compat vs ws v v' H Hv).
Qed.

Lemma flagged_flagged (df : DataFrame) : flagged (flagged df) = flagged df.
Proof.
  unfold flagged. cbn [rows columns]. f_equal.
  - apply with_column_idem.
  - rewrite map_map. cbn [obs].
    apply map_ext. intros r. do 2 f_equal.
    unfold flag_in. cbn [obs].
    now rewrite values_of_map by reflexivity.
Qed.

Lemma flagged_has_column (df : DataFrame) (label : string) :
  String.eqb label "is_outlier" = false ->
  has_column (flagged df) label = has_column df label.
Proof.
  intros H. unfold has_column, flagged. cbn [columns].
  now apply with_column_other.
Qed.

Lemma flagged_length (df : DataFrame) :
  List.length (rows (flagged df)) = List.length (rows df).
Proof. unfold flagged. cbn [rows]. apply length_map. Qed.

(** On a frame that has the two columns the pass reads, it returns the
    same records in the same order, each with its flag set. *)
Lemma detect_outliers_iqr_frame (df : DataFrame) :
  readable df ->
  exists out,
    detect_outliers_iqr df = Ok out
    /\ map obs (rows out) = map obs (rows df)
    /\ Forall (fun r => is_outlier r <> None) (rows out)
    /\ columns out = with_column "is_outlier" (columns df).
Proof.
  intros H. exists (flagged df). split; [|split; [|split]].
  - now apply detect_outliers_iqr_readable.
  - unfold flagged. cbn [rows]. now rewrite map_map.
  - unfold flagged. cbn [rows]. apply Forall_forall. intros r Hr.
    apply in_map_iff in Hr. destruct Hr as [r0 [<- _]]. discriminate.
  - reflexivity.
Qed.

End Flags.

(* ================================================================== *)
(** * Properties of the task enumeration *)

Module Enumerator.

Lemma NoDup_flat_map {A B : Type} (f : A -> list B) (l : list A) :
  NoDup l ->
  (forall x, In x l -> NoDup (f x)) ->
  (forall x y b, In x l -> In y l -> In b (f x) -> In b (f y) -> x = y) ->
  NoDup (flat_map f l).
Proof.
  intros Hl. induction Hl as [|x l Hx Hl IH]; intros Hf Hdisj; simpl.
  - constructor.
  - apply NoDup_app.
    + apply Hf. now left.
    + apply IH.
      * intros y Hy. apply Hf. now right.
      * intros y z b Hy Hz. apply Hdisj; now right.
    + intros b Hb Hb'. apply in_flat_map in Hb'.
      destruct Hb' as [y [Hy Hby]].
      assert (x = y) by (apply (Hdisj x y b); simpl; auto).
      subst y. contradiction.
Qed.

Lemma NoDup_map_injective {A B : Type} (f : A -> B) (l : list A) :
  (forall x y, f x = f y -> x = y) -> NoDup l -> NoDup (map f l).
Proof.
  intros Hinj Hl. apply NoDup_map_NoDup_ForallPairs; [|exact Hl].
  intros x y _ _. apply Hinj.
Qed.

(** A key of a dict has one value. *)
Lemma dict_functional {V : Type} (d : list (string * V)) (k : string)
      (v v' : V) :
  dict_ok d -> In (k, v) d -> In (k, v') d -> v = v'.
Proof.
  unfold dict_ok. intros Hd. induction d as [|[k0 v0] d IH]; simpl;
    intros H H'; [contradiction|].
  inversion Hd as [|? ? Hk0 Hd']; subst.
  destruct H as [H|H], H' as [H'|H'].
  - congruence.
  - inversion H; subst. exfalso. apply Hk0.
    apply in_map_iff. now exists (k, v').
  - inversion H'; subst. exfalso. apply Hk0.
    apply in_map_iff. now exists (k, v).
  - now apply IH.
Qed.

Lemma dict_NoDup {V : Type} (d : list (string * V)) : dict_ok d -> NoDup d.
Proof. apply NoDup_map_inv. Qed.

Lemma in_tasks (groups : groups_t) (c g : string) :
  In (c, g) (tasks groups) <-> exists cs, In (g, cs) groups /\ In c cs.
Proof.
  unfold tasks. rewrite in_flat_map. split.
  - intros [[g' cs] [Hg Hc]]. simpl in Hc.
    apply in_map_iff in Hc. destruct Hc as [c' [E Hc]].
    inversion E; subst. now exists cs.
  - intros [cs [Hg Hc]]. exists (g, cs). split; [exact Hg|].
    simpl. apply in_map_iff. now exists c.
Qed.

Lemma in_requests (groups : groups_t) (indicators : indicators_t)
      (t : FetchTask) :
  In t (requests groups indicators)
  <-> In (t_country_code t, t_group t) (tasks groups)
      /\ In (t_ind_code t, t_ind_name t) indicators.
Proof.
  unfold requests. rewrite in_flat_map. split.
  - intros [[c g] [Hcg Ht]]. simpl in Ht.
    apply in_map_iff in Ht. destruct Ht as [[ic iname] [E Hi]].
    subst t. simpl. now split.
  - intros [Hcg Hi]. exists (t_country_code t, t_group t).
    split; [exact Hcg|]. simpl.
    apply in_map_iff. exists (t_ind_code t, t_ind_name t).
    split; [now destruct t | exact Hi].
Qed.

Lemma NoDup_tasks (groups : groups_t) :
  dict_ok groups -> Forall (fun gc => NoDup (snd gc)) groups ->
  NoDup (tasks groups).
Proof.
  intros Hd Hcs. unfold tasks. apply NoDup_flat_map.
  - now apply dict_NoDup.
  - intros [g cs] Hg. simpl.
    apply NoDup_map_injective; [intros x y E; now inversion E|].
    rewrite Forall_forall in Hcs. exact (Hcs _ Hg).
  - intros [g cs] [g' cs'] [c g0] Hg Hg' Hb Hb'. simpl in Hb, Hb'.
    apply in_map_iff in Hb. destruct Hb as [x [E _]].
    apply in_map_iff in Hb'. destruct Hb' as [x' [E' _]].
    inversion E; inversion E'; subst.
    f_equal. exact (dict_functional groups g0 cs cs' Hd Hg Hg').
Qed.

Lemma NoDup_requests (groups : groups_t) (indicators : indicators_t) :
  NoDup (tasks groups) -> dict_ok indicators ->
  NoDup (requests groups indicators).
Proof.
  intros Ht Hi. unfold requests. apply NoDup_flat_map.
  - exact Ht.
  - intros [c g] _. simpl.
    apply NoDup_map_injective; [|now apply dict_NoDup].
    intros [ic iname] [ic' iname'] E. now inversion E.
  - intros [c g] [c' g'] t _ _ Hb Hb'. simpl in Hb, Hb'.
    apply in_map_iff in Hb. destruct Hb as [x [E _]].
    apply in_map_iff in Hb'. destruct Hb' as [x' [E' _]].
    subst t. now inversion E'.
Qed.

Lemma length_tasks (groups : groups_t) :
  List.length (tasks groups)
  = list_sum (map (fun gc => List.length (snd gc)) groups).
Proof.
  unfold tasks. rewrite length_flat_map. f_equal.
  apply map_ext. intros gc. apply length_map.
Qed.

Lemma length_requests (groups : groups_t) (indicators : indicators_t) :
  List.length (requests groups indicators)
  = (List.length (tasks groups) * List.length indicators)%nat.
Proof.
  unfold requests. apply flat_map_constant_length.
  intros cg _. apply length_map.
Qed.

Lemma futures_requests (groups : groups_t) (indicators : indicators_t)
      (net : network) :
  map snd (futures groups indicators net) = requests groups indicators.
Proof.
  unfold futures.
  set (reqs := requests groups indicators).
  assert (H : forall (os : list outcome) (ts : list FetchTask),
             List.length os = List.length ts -> map snd (combine os ts) = ts).
  { induction os as [|o os IH]; intros [|t ts] E; simpl in *;
      try discriminate; [reflexivity|].
    f_equal. apply IH. congruence. }
  apply H. now rewrite length_map, length_seq.
Qed.

End Enumerator.

(* ================================================================== *)
(** * Properties of the extraction loop *)

Module Fetch.

#[local] Arguments String.eqb : simpl never.

(** What one entry adds to [all_data] when its turn does not raise. *)
Definition emitted (t : FetchTask) (entry : json) : list Observation :=
  match entry_step t entry with
  | Ok (Some o) => [o]
  | _ => []
  end.

(** The entries a response's loop gets through: those before the first
    one whose turn raises. *)
Fixpoint before_raise (t : FetchTask) (entries : list json) : list json :=
  match entries with
  | [] => []
  | entry :: rest =>
      match entry_step t entry with
      | Ok _ => entry :: before_raise t rest
      | Raise _ => []
      end
  end.

(** The entry sequence of a body, when it has one. *)
Definition entries_of (data : json) : option (list json) :=
  match py_len data with
  | Ok n =>
      if (n <? 2)%nat then Some []
      else match (d1 <- py_getitem_int data 1 ;; py_iter d1) with
           | Ok entries => Some entries
           | Raise _ => None
           end
  | Raise _ => None
  end.

(** What one future adds to [all_data]. *)
Definition contribution (f : outcome * FetchTask) : list Observation :=
  handle_future [] f.

Lemma for_entries_eq (t : FetchTask) (entries : list json)
      (acc : list Observation) :
  fst (for_entries t entries acc)
  = acc ++ flat_map (emitted t) (before_raise t entries).
Proof.
  revert acc. induction entries as [|e entries IH]; intros acc; simpl.
  - now rewrite app_nil_r.
  - assert (Em : emitted t e = match entry_step t e with
                                 | Ok (Some o) => [o]
                                 | _ => []
                                 end) by reflexivity.
    destruct (entry_step t e) as [[o|]|x]; simpl; rewrite ?Em, ?IH.
    + now rewrite <- app_assoc.
    + reflexivity.
    + now rewrite app_nil_r.
Qed.

Lemma try_body_eq (t : FetchTask) (data : json) (acc : list Observation) :
  fst (try_body t data acc)
  = acc ++ match entries_of data with
           | Some entries => flat_map (emitted t) (before_raise t entries)
           | None => []
           end.
Proof.
  unfold try_body, entries_of.
  destruct (py_len data) as [n|x]; simpl; [|now rewrite app_nil_r].
  destruct (n <? 2)%nat; simpl; [now rewrite app_nil_r|].
  destruct (d1 <- py_getitem_int data 1 ;; py_iter d1) as [entries|x]; simpl.
  - apply for_entries_eq.
  - now rewrite app_nil_r.
Qed.

Lemma handle_future_eq (acc : list Observation) (f : outcome * FetchTask) :
  handle_future acc f = acc ++ contribution f.
Proof.
  unfold contribution, handle_future.
  destruct (fst f) as [x|x|data]; try now rewrite app_nil_r.
  now rewrite !try_body_eq.
Qed.

Lemma fold_handle_future (fs : list (outcome * FetchTask))
      (acc : list Observation) :
  fold_left handle_future fs acc = acc ++ flat_map contribution fs.
Proof.
  revert acc. induction fs as [|f fs IH]; intros acc; simpl.
  - now rewrite app_nil_r.
  - now rewrite IH, handle_future_eq, <- app_assoc.
Qed.

(** [all_data] is the contributions of the futures, in submission order. *)
Lemma all_data_eq (groups : groups_t) (indicators : indicators_t)
      (net : network) :
  all_data groups indicators net
  = flat_map contribution (futures groups indicators net).
Proof. unfold all_data. now rewrite fold_handle_future. Qed.

Lemma contribution_body (t : FetchTask) (data : json) :
  contribution (Body data, t)
  = match entries_of data with
    | Some entries => flat_map (emitted t) (before_raise t entries)
    | None => []
    end.
Proof. unfold contribution, handle_future. simpl. now rewrite try_body_eq. Qed.

Lemma before_raise_app (t : FetchTask) (pre post : list json) (bad : json) :
  Forall (fun e => ~ raises (entry_step t e)) pre ->
  raises (entry_step t bad) ->
  before_raise t (pre ++ bad :: post) = pre.
Proof.
  intros Hpre [x Hbad]. induction Hpre as [|e pre He Hpre IH]; simpl.
  - now rewrite Hbad.
  - destruct (entry_step t e) as [r|x'] eqn:E.
    + now rewrite IH.
    + exfalso. apply He. now exists x'.
Qed.

Lemma before_raise_incl (t : FetchTask) (entries : list json) (e : json) :
  In e (before_raise t entries) -> In e entries.
Proof.
  induction entries as [|e0 entries IH]; simpl; [tauto|].
  destruct (entry_step t e0); simpl; [|tauto].
  intros [H|H]; auto.
Qed.

Lemma in_emitted (t : FetchTask) (e : json) (o : Observation) :
  In o (emitted t e) <-> entry_step t e = Ok (Some o).
Proof.
  unfold emitted. destruct (entry_step t e) as [[o'|]|x]; simpl.
  - split; [intros [->|[]]; reflexivity | intros E; left; congruence].
  - split; [tauto | discriminate].
  - split; [tauto | discriminate].
Qed.

(** Inversion of a successful [bind]. *)
Lemma bind_Ok {A B : Type} (m : result A) (k : A -> result B) (b : B) :
  bind m k = Ok b -> exists a, m = Ok a /\ k a = Ok b.
Proof. destruct m as [a|x]; simpl; [now exists a | discriminate]. Qed.

Ltac invert_bind H :=
  let a := fresh "a" in
  let E := fresh "E" in
  apply bind_Ok in H; destruct H as [a [E H]].

Lemma entry_step_observation (t : FetchTask) (e : json) (o : Observation) :
  entry_step t e = Ok (Some o) -> observation_of t e = Ok o.
Proof.
  unfold entry_step. intros H. invert_bind H.
  destruct a; try discriminate;
    (invert_bind H; congruence).
Qed.

(** The fields of an emitted observation: three from the task, the
    others from the entry as it was received. *)
Lemma observation_of_fields (t : FetchTask) (e : json) (o : Observation) :
  observation_of t e = Ok o ->
  country_group o = t_group t
  /\ indicator_code o = t_ind_code t
  /\ indicator_name o = t_ind_name t
  /\ (c <- py_getitem e "country" ;; py_getitem c "value") = Ok (country o)
  /\ (c <- py_getitem e "country" ;; py_getitem c "id") = Ok (country_code o)
  /\ (d <- py_getitem e "date" ;; py_int d) = Ok (year o)
  /\ (v <- py_getitem e "value" ;; py_float v) = Ok (value o).
Proof.
  unfold observation_of. intros H.
  repeat invert_bind H.
  injection H as <-. simpl.
  match goal with
  | E : py_getitem e "country" = Ok ?c, E' : py_getitem e "country" = Ok ?c'
    |- _ => assert (c' = c) by congruence; subst c'
  end.
  repeat match goal with
         | E : py_getitem e _ = Ok _ |- _ => rewrite E; clear E
         end.
  simpl. repeat split; try reflexivity; assumption.
Qed.

End Fetch.

(* ================================================================== *)
(** * Sample inputs *)

Module Samples.

(** An entry shaped as the World Bank API sends it. *)
Definition wb_entry (id name : string) (date value : json) : json :=
  JObj [ ("indicator", JObj [("id", JStr "NY.GDP.MKTP.KD.ZG");
                             ("value", JStr "GDP growth (annual %)")]);
         ("country", JObj [("id", JStr id); ("value", JStr name)]);
         ("countryiso3code", JStr "USA");
         ("date", date);
         ("value", value) ].

Definition wb_body (entries : list json) : json :=
  JArr [ JObj [("page", JInt 1); ("pages", JInt 1)]; JArr entries ].

(** Only the first request gets a body; every other one times out. *)
Definition only_first (data : json) : network :=
  fun i => match i with
           | O => Body data
           | S _ => ResultRaises RequestException
           end.

Definition all_fail : network := fun _ => ResultRaises RequestException.

Definition first_task : FetchTask :=
  mkTask "USA" "G7" "NY.GDP.MKTP.KD.ZG" "GDP Growth (%)".

Definition good_2001 : json :=
  wb_entry "US" "United States" (JStr "2001") (JFloat (3 # 2)).
Definition null_2002 : json :=
  wb_entry "US" "United States" (JStr "2002") JNull.
Definition bad_year : json :=
  wb_entry "US" "United States" (JStr "20x3") (JFloat (5 # 2)).
Definition good_2004 : json :=
  wb_entry "US" "United States" (JStr "2004") (JStr "4.25").
Definition early_1999 : json :=
  wb_entry "US" "United States" (JStr "1999") (JFloat (7 # 2)).

Definition obs_2001 : Observation :=
  mkObservation (JStr "United States") (JStr "US") "G7"
                "NY.GDP.MKTP.KD.ZG" "GDP Growth (%)" 2001 (3 # 2).
Definition obs_2004 : Observation :=
  mkObservation (JStr "United States") (JStr "US") "G7"
                "NY.GDP.MKTP.KD.ZG" "GDP Growth (%)" 2004 (17 # 4).
Definition obs_1999 : Observation :=
  mkObservation (JStr "United States") (JStr "US") "G7"
                "NY.GDP.MKTP.KD.ZG" "GDP Growth (%)" 1999 (7 # 2).

(** A record of indicator [code] with value [v]. *)
Definition record (code : string) (v : Q) : Observation :=
  mkObservation (JStr "United States") (JStr "US") "G7" code code 2010 v.

Definition ten_values : list Q :=
  [10; 12; 12; 13; 12; 11; 14; 13; 15; 102].

Definition ten_records : list Observation :=
  map (record "A") ten_values.

End Samples.

(* ================================================================== *)
(** * The statements of the specification *)

(** ** Statements as the specification words them *)

(** Recovery entry by entry: every entry of a response that parses is
    turned into an observation of the result, whatever the other
    entries of the response are. *)
Definition per_entry_recovery : Prop :=
  forall groups indicators net i t data entries e o,
    nth_error (futures groups indicators net) i = Some (Body data, t) ->
    Fetch.entries_of data = Some entries ->
    In e entries ->
    entry_step t e = Ok (Some o) ->
    In o (all_data groups indicators net).

(** The invariant of the data model on one observation. *)
Definition indicator_configured (indicators : indicators_t)
  (o : Observation) : Prop :=
  In (indicator_code o) (map fst indicators).

Definition country_configured (groups : groups_t) (o : Observation) : Prop :=
  exists g cs c, In (g, cs) groups /\ In c cs /\ country_code o = JStr c.

Definition year_in_range (o : Observation) : Prop :=
  (START_YEAR <= year o <= END_YEAR)%Z.

Definition observation_invariant (groups : groups_t)
  (indicators : indicators_t) (o : Observation) : Prop :=
  indicator_configured indicators o
  /\ country_configured groups o
  /\ year_in_range o.

Definition fetcher_invariant : Prop :=
  forall groups indicators net o,
    In o (all_data groups indicators net) ->
    observation_invariant groups indicators o.

(** An entry whose turn in the loop raises and one whose turn does not. *)
Definition entry_raises (t : FetchTask) (e : json) : Prop :=
  raises (entry_step t e).
Definition entry_passes (t : FetchTask) (e : json) : Prop :=
  ~ raises (entry_step t e).

(** The number of configured countries, group by group. *)
Definition country_count (groups : groups_t) : nat :=
  list_sum (map (fun gc => List.length (snd gc)) groups).

(** The records of the frame [fetch_data] returns. *)
Definition fetched (groups : groups_t) (indicators : indicators_t)
  (net : network) : list Observation :=
  map obs (rows (fetch_data groups indicators net)).

Lemma fetched_all_data (groups : groups_t) (indicators : indicators_t)
      (net : network) :
  fetched groups indicators net = all_data groups indicators net.
Proof. apply Flags.obs_pd_DataFrame. Qed.

(** A run without a single observation hands the pass a frame without
    columns, and the pass raises on it. *)
Lemma main_without_observations (groups : groups_t)
      (indicators : indicators_t) (net : network) :
  all_data groups indicators net = [] ->
  main groups indicators net = Aborted KeyError.
Proof.
  intros H. unfold main, fetch_data. now rewrite H.
Qed.

Lemma no_body_no_observation (fs : list (outcome * FetchTask)) :
  (forall f, In f fs -> forall data, fst f <> Body data) ->
  flat_map Fetch.contribution fs = [].
Proof.
  induction fs as [|f fs IH]; intros H; simpl; [reflexivity|].
  rewrite IH by (intros g Hg; apply H; now right).
  rewrite app_nil_r. specialize (H f (or_introl eq_refl)).
  unfold Fetch.contribution, handle_future.
  destruct (fst f) as [x|x|data]; try reflexivity.
  now contradiction (H data).
Qed.

(* ================================================================== *)
(** ** Parse errors (C1, C10) *)

Import Samples.

Lemma sample_entries :
  entry_step first_task good_2001 = Ok (Some obs_2001)
  /\ entry_step first_task null_2002 = Ok None
  /\ entry_step first_task bad_year = Raise ValueError
  /\ entry_step first_task good_2004 = Ok (Some obs_2004)
  /\ entry_step first_task early_1999 = Ok (Some obs_1999).
Proof. repeat split; vm_compute; reflexivity. Qed.

(** C1, as stated, does not hold: in the response [bad_year; good_2004]
    the second entry parses, yet the result holds no observation for it,
    because the exception raised by the first entry ends the loop over
    the response. *)
Lemma per_entry_recovery_fails : ~ per_entry_recovery.
Proof.
  intros H.
  specialize (H COUNTRY_GROUPS INDICATORS
                (only_first (wb_body [bad_year; good_2004]))
                O first_task (wb_body [bad_year; good_2004])
                [bad_year; good_2004] good_2004 obs_2004).
  assert (Hin : In obs_2004
                   (all_data COUNTRY_GROUPS INDICATORS
                             (only_first (wb_body [bad_year; good_2004])))).
  { apply H.
    - reflexivity.
    - reflexivity.
    - right. now left.
    - vm_compute. reflexivity. }
  vm_compute in Hin. exact Hin.
Qed.

(** What is kept when the response read in position [i] fails after the
    entries [pre]: the contributions of the futures before [i], the
    observations of [pre], the contributions of the futures after [i]. *)
Definition kept_records (groups : groups_t) (indicators : indicators_t)
  (net : network) (i : nat) (t : FetchTask) (pre : list json)
  : list Observation :=
  flat_map Fetch.contribution (firstn i (futures groups indicators net))
  ++ flat_map (Fetch.emitted t) pre
  ++ flat_map Fetch.contribution
       (skipn (S i) (futures groups indicators net)).

(** C1, amended: recovery is per response.  When the turn of an entry of
    the response read in position [i] raises, the failing entry and the
    entries after it add nothing, the entries before it and every other
    response are processed, and the exception stays inside the task's
    handler: [fetch_data] returns the frame of exactly the records
    kept.  A run that has kept at least one record goes on to the
    load. *)
Theorem recovery_per_response
        (groups : groups_t) (indicators : indicators_t) (net : network)
        (i : nat) (t : FetchTask) (data : json)
        (pre post : list json) (bad : json) :
  nth_error (futures groups indicators net) i = Some (Body data, t) ->
  Fetch.entries_of data = Some (pre ++ bad :: post) ->
  Forall (entry_passes t) pre ->
  entry_raises t bad ->
  fetch_data groups indicators net
  = pd_DataFrame (kept_records groups indicators net i t pre)
  /\ fetched groups indicators net
     = kept_records groups indicators net i t pre
  /\ (kept_records groups indicators net i t pre <> [] ->
      exists df_clean,
        main groups indicators net = Loaded df_clean
        /\ map obs (rows df_clean)
           = kept_records groups indicators net i t pre).
Proof.
  intros Hi Hdata Hpre Hbad.
  assert (Hall : all_data groups indicators net
                 = kept_records groups indicators net i t pre).
  { unfold kept_records. rewrite Fetch.all_data_eq.
    destruct (nth_error_split _ _ Hi) as [l1 [l2 [E Hlen]]].
    assert (E1 : firstn i (futures groups indicators net) = l1).
    { rewrite E, <- Hlen. rewrite firstn_app, Nat.sub_diag, firstn_all.
      simpl. apply app_nil_r. }
    assert (E2 : skipn (S i) (futures groups indicators net) = l2).
    { rewrite E, <- Hlen.
      change (l1 ++ (Body data, t) :: l2)
        with (l1 ++ [(Body data, t)] ++ l2).
      rewrite app_assoc, skipn_app.
      replace (S (List.length l1))
        with (List.length (l1 ++ [(Body data, t)]))
        by (rewrite length_app; simpl; lia).
      rewrite skipn_all, Nat.sub_diag. reflexivity. }
    rewrite E1, E2, E, flat_map_app. cbn [flat_map].
    rewrite Fetch.contribution_body, Hdata.
    now rewrite (Fetch.before_raise_app t pre post bad Hpre Hbad). }
  split; [|split].
  - unfold fetch_data. now rewrite Hall.
  - now rewrite fetched_all_data.
  - intros Hne. unfold main, fetch_data. rewrite Hall.
    rewrite Detector.detect_outliers_iqr_readable
      by now apply Flags.pd_DataFrame_readable.
    eexists. split; [reflexivity|].
    unfold Detector.flagged. cbn [rows]. rewrite map_map. cbn [obs].
    apply Flags.obs_pd_DataFrame.
Qed.

Lemma recovery_per_response_witness :
  fetch_data COUNTRY_GROUPS INDICATORS
             (only_first (wb_body [good_2001; null_2002; bad_year; good_2004]))
  = pd_DataFrame
      (kept_records COUNTRY_GROUPS INDICATORS
         (only_first (wb_body [good_2001; null_2002; bad_year; good_2004]))
         0 first_task [good_2001; null_2002])
  /\ fetched COUNTRY_GROUPS INDICATORS
             (only_first (wb_body [good_2001; null_2002; bad_year; good_2004]))
     = kept_records COUNTRY_GROUPS INDICATORS
         (only_first (wb_body [good_2001; null_2002; bad_year; good_2004]))
         0 first_task [good_2001; null_2002]
  /\ (kept_records COUNTRY_GROUPS INDICATORS
         (only_first (wb_body [good_2001; null_2002; bad_year; good_2004]))
         0 first_task [good_2001; null_2002] <> [] ->
      exists df_clean,
        main COUNTRY_GROUPS INDICATORS
             (only_first (wb_body [good_2001; null_2002; bad_year; good_2004]))
        = Loaded df_clean
        /\ map obs (rows df_clean)
           = kept_records COUNTRY_GROUPS INDICATORS
               (only_first
                  (wb_body [good_2001; null_2002; bad_year; good_2004]))
               0 first_task [good_2001; null_2002]).
Proof.
  apply (recovery_per_response
           COUNTRY_GROUPS INDICATORS
           (only_first (wb_body [good_2001; null_2002; bad_year; good_2004]))
           0 first_task
           (wb_body [good_2001; null_2002; bad_year; good_2004])
           [good_2001; null_2002] [good_2004] bad_year).
  - reflexivity.
  - reflexivity.
  - repeat constructor; intros [x Hx]; vm_compute in Hx; discriminate.
  - exists ValueError. vm_compute. reflexivity.
Defined.

(** C10: when the turn of an entry raises partway through a response,
    the loop over the futures goes on from [all_data] extended with the
    observations of the entries before the failing one: what the task
    had appended stays, the failing entry and the entries after it add
    nothing, and the handler is where the task ends. *)
Theorem parse_error_keeps_earlier_output
        (t : FetchTask) (meta : json) (more : list json)
        (pre post : list json) (bad : json)
        (acc : list Observation) (rest : list (outcome * FetchTask)) :
  Forall (entry_passes t) pre ->
  entry_raises t bad ->
  let data := JArr (meta :: JArr (pre ++ bad :: post) :: more) in
  raises (snd (try_body t data acc))
  /\ handle_future acc (Body data, t) = acc ++ flat_map (Fetch.emitted t) pre
  /\ fold_left handle_future ((Body data, t) :: rest) acc
     = fold_left handle_future rest (acc ++ flat_map (Fetch.emitted t) pre).
Proof.
  intros Hpre Hbad data.
  assert (Hh : handle_future acc (Body data, t)
               = acc ++ flat_map (Fetch.emitted t) pre).
  { rewrite Fetch.handle_future_eq, Fetch.contribution_body.
    unfold data, Fetch.entries_of. simpl.
    now rewrite (Fetch.before_raise_app t pre post bad Hpre Hbad). }
  split; [|split].
  - unfold data, try_body. simpl.
    destruct Hbad as [x Hbad]. clear Hh. revert acc.
    induction Hpre as [|e pre He Hpre IH]; intros acc; simpl.
    + rewrite Hbad. now exists x.
    + destruct (entry_step t e) as [[o|]|x'] eqn:E.
      * apply IH.
      * apply IH.
      * exfalso. apply He. now exists x'.
  - exact Hh.
  - simpl. now rewrite Hh.
Qed.

Lemma parse_error_keeps_earlier_output_witness :
  raises (snd (try_body first_task
                 (JArr (JNull :: JArr ([good_2001; null_2002]
                                        ++ bad_year :: [good_2004]) :: []))
                 [obs_1999]))
  /\ handle_future [obs_1999]
       (Body (JArr (JNull :: JArr ([good_2001; null_2002]
                                    ++ bad_year :: [good_2004]) :: [])),
        first_task)
     = [obs_1999] ++ flat_map (Fetch.emitted first_task) [good_2001; null_2002]
  /\ fold_left handle_future
       ((Body (JArr (JNull :: JArr ([good_2001; null_2002]
                                     ++ bad_year :: [good_2004]) :: [])),
         first_task) :: [])
       [obs_1999]
     = fold_left handle_future []
         ([obs_1999] ++ flat_map (Fetch.emitted first_task)
                                 [good_2001; null_2002]).
Proof.
  apply (parse_error_keeps_earlier_output
           first_task JNull [] [good_2001; null_2002] [good_2004] bad_year
           [obs_1999] []).
  - repeat constructor; intros [x Hx]; vm_compute in Hx; discriminate.
  - exists ValueError. vm_compute. reflexivity.
Defined.

(* ================================================================== *)
(** ** The empty result (C2, C8) *)

(** C2: when every request fails, [fetch_data] returns the frame of no
    record, which has no column; the pass raises KeyError on
    [df["indicator_code"]], and the run ends there, before the load. *)
Theorem run_without_observations_aborts :
  fetch_data COUNTRY_GROUPS INDICATORS all_fail = mkDataFrame [] []
  /\ detect_outliers_iqr (fetch_data COUNTRY_GROUPS INDICATORS all_fail)
     = Raise KeyError
  /\ main COUNTRY_GROUPS INDICATORS all_fail = Aborted KeyError.
Proof. repeat split; vm_compute; reflexivity. Qed.

(** C8: on the frame built from no record the pass returns no frame at
    all. *)
Theorem detect_outliers_iqr_no_records :
  detect_outliers_iqr (pd_DataFrame []) = Raise KeyError.
Proof. reflexivity. Qed.

(* ================================================================== *)
(** ** The task enumeration (C4) *)

(** C4: for a configuration whose dicts have distinct keys and whose
    country lists are free of duplicates, the requests submitted are
    |countries| x |indicators| in number, no task occurs twice among
    them, and the tasks that occur are exactly the combinations of a
    country of a group, that group, and an indicator of the table. *)
Theorem one_request_per_pair
        (groups : groups_t) (indicators : indicators_t) (net : network) :
  dict_ok groups ->
  dict_ok indicators ->
  Forall (fun gc => NoDup (snd gc)) groups ->
  List.length (futures groups indicators net)
  = (country_count groups * List.length indicators)%nat
  /\ NoDup (map snd (futures groups indicators net))
  /\ (forall t,
        In t (map snd (futures groups indicators net))
        <-> exists cs, In (t_group t, cs) groups
                       /\ In (t_country_code t) cs
                       /\ In (t_ind_code t, t_ind_name t) indicators).
Proof.
  intros Hg Hi Hcs.
  rewrite Enumerator.futures_requests.
  split; [|split].
  - rewrite <- (length_map snd), Enumerator.futures_requests.
    rewrite Enumerator.length_requests, Enumerator.length_tasks.
    reflexivity.
  - apply Enumerator.NoDup_requests; [|exact Hi].
    now apply Enumerator.NoDup_tasks.
  - intros t. rewrite Enumerator.in_requests, Enumerator.in_tasks.
    split.
    + intros [[cs [H1 H2]] H3]. now exists cs.
    + intros [cs [H1 [H2 H3]]]. split; [now exists cs | exact H3].
Qed.

Ltac distinct_strings :=
  repeat (constructor; [simpl; intuition discriminate|]); constructor.

Lemma one_request_per_pair_witness :
  List.length (futures COUNTRY_GROUPS INDICATORS all_fail)
  = (country_count COUNTRY_GROUPS * List.length INDICATORS)%nat
  /\ NoDup (map snd (futures COUNTRY_GROUPS INDICATORS all_fail))
  /\ (forall t,
        In t (map snd (futures COUNTRY_GROUPS INDICATORS all_fail))
        <-> exists cs, In (t_group t, cs) COUNTRY_GROUPS
                       /\ In (t_country_code t) cs
                       /\ In (t_ind_code t, t_ind_name t) INDICATORS).
Proof.
  apply (one_request_per_pair COUNTRY_GROUPS INDICATORS all_fail).
  - unfold dict_ok. simpl. distinct_strings.
  - unfold dict_ok. simpl. distinct_strings.
  - repeat (apply Forall_cons; [simpl; distinct_strings|]). apply Forall_nil.
Defined.

(* ================================================================== *)
(** ** The invariant of the observations (C9) *)

(** C9, as stated, does not hold: the year and the country code of an
    observation are those of the response entry, and nothing compares
    them with the configuration.  An entry dated 1999 for the country
    id "US" yields an observation of year 1999 and country code "US". *)
Lemma fetcher_invariant_fails :
  all_data COUNTRY_GROUPS INDICATORS (only_first (wb_body [early_1999]))
  = [obs_1999]
  /\ ~ country_configured COUNTRY_GROUPS obs_1999
  /\ ~ year_in_range obs_1999
  /\ ~ fetcher_invariant.
Proof.
  assert (Hall : all_data COUNTRY_GROUPS INDICATORS
                          (only_first (wb_body [early_1999])) = [obs_1999])
    by (vm_compute; reflexivity).
  assert (Hy : ~ year_in_range obs_1999).
  { intros [Hlo _]. vm_compute in Hlo. now apply Hlo. }
  split; [exact Hall|]. split; [|split; [exact Hy|]].
  - intros [g [cs [c [Hg [Hc E]]]]]. simpl in E. injection E as <-.
    simpl in Hg. destruct Hg as [Hg|[Hg|[]]]; injection Hg as <- <-;
      simpl in Hc; intuition discriminate.
  - intros H.
    specialize (H COUNTRY_GROUPS INDICATORS
                  (only_first (wb_body [early_1999])) obs_1999).
    rewrite Hall in H. apply Hy, H. now left.
Qed.

(** C9, amended: every observation of the result comes from one entry
    of the body of one submitted request.  Its indicator code and name
    are an item of the indicator table and its group is a configured
    group, those of the request; its country code and its year are the
    entry's [country.id] and [int(date)], as received. *)
Theorem observation_provenance
        (groups : groups_t) (indicators : indicators_t) (net : network)
        (o : Observation) :
  In o (fetched groups indicators net) ->
  In (indicator_code o, indicator_name o) indicators
  /\ (exists cs, In (country_group o, cs) groups)
  /\ exists i t data entries entry,
       nth_error (futures groups indicators net) i = Some (Body data, t)
       /\ Fetch.entries_of data = Some entries
       /\ In entry entries
       /\ indicator_code o = t_ind_code t
       /\ country_group o = t_group t
       /\ (c <- py_getitem entry "country" ;; py_getitem c "id")
          = Ok (country_code o)
       /\ (d <- py_getitem entry "date" ;; py_int d) = Ok (year o).
Proof.
  rewrite fetched_all_data, Fetch.all_data_eq.
  intros Ho. apply in_flat_map in Ho. destruct Ho as [[oc t] [Hf Ho]].
  assert (Ht : In t (requests groups indicators)).
  { rewrite <- (Enumerator.futures_requests groups indicators net).
    apply in_map_iff. now exists (oc, t). }
  apply Enumerator.in_requests in Ht. destruct Ht as [Hcg Hind].
  apply Enumerator.in_tasks in Hcg. destruct Hcg as [cs [Hg _]].
  destruct oc as [x|x|data]; try contradiction.
  rewrite Fetch.contribution_body in Ho.
  destruct (Fetch.entries_of data) as [entries|] eqn:Hdata; [|contradiction].
  apply in_flat_map in Ho. destruct Ho as [e [He Ho]].
  apply Fetch.before_raise_incl in He.
  apply Fetch.in_emitted, Fetch.entry_step_observation in Ho.
  apply Fetch.observation_of_fields in Ho.
  destruct Ho as [Eg [Ec [En [_ [Eid [Ey _]]]]]].
  destruct (In_nth_error _ _ Hf) as [i Hi].
  split; [|split].
  - now rewrite Ec, En.
  - exists cs. now rewrite Eg.
  - exists i, t, data, entries, e. repeat split; assumption.
Qed.

Lemma observation_provenance_witness :
  In ("NY.GDP.MKTP.KD.ZG", "GDP Growth (%)") INDICATORS
  /\ (exists cs, In ("G7", cs) COUNTRY_GROUPS)
  /\ exists i t data entries entry,
       nth_error
         (futures COUNTRY_GROUPS INDICATORS (only_first (wb_body [early_1999])))
         i = Some (Body data, t)
       /\ Fetch.entries_of data = Some entries
       /\ In entry entries
       /\ "NY.GDP.MKTP.KD.ZG" = t_ind_code t
       /\ "G7" = t_group t
       /\ (c <- py_getitem entry "country" ;; py_getitem c "id")
          = Ok (JStr "US")
       /\ (d <- py_getitem entry "date" ;; py_int d) = Ok 1999%Z.
Proof.
  apply (observation_provenance
           COUNTRY_GROUPS INDICATORS (only_first (wb_body [early_1999]))
           obs_1999).
  vm_compute. now left.
Defined.

(* ================================================================== *)
(** ** The outlier pass in exact arithmetic (C3, C6, C7) *)

Import Detector Quantile.

(** The records of a frame built from at least one record can be read. *)
Lemma values_of_nonempty (A : string) (records : list Observation) :
  values_of A (rows (pd_DataFrame records)) <> [] -> records <> [].
Proof. intros H E. subst records. now apply H. Qed.

(** C3: in every set of records whose indicator [A] has the values
    10, 12, 12, 13, 12, 11, 14, 13, 15, 102, in this order, the pass
    flags the record of value 102 and no other record of [A]. *)
Theorem flags_102_only (records : list Observation) (A : string) :
  same_values (values_of A (rows (pd_DataFrame records))) ten_values ->
  exists df,
    detect_outliers_iqr (pd_DataFrame records) = Ok df
    /\ map obs (rows df) = records
    /\ map is_outlier (rows_of A (rows df))
       = [Some false; Some false; Some false; Some false; Some false;
          Some false; Some false; Some false; Some false; Some true].
Proof.
  intros H.
  assert (Hne : records <> []).
  { apply (values_of_nonempty A). intros E. rewrite E in H. inversion H. }
  exists (flagged (pd_DataFrame records)). split; [|split].
  - apply detect_outliers_iqr_readable. now apply Flags.pd_DataFrame_readable.
  - unfold flagged. cbn [rows]. rewrite map_map. cbn [obs].
    apply Flags.obs_pd_DataFrame.
  - rewrite Flags.flags_of_indicator.
    rewrite (Flags.flags_compat _ ten_values _ ten_values H H).
    vm_compute. reflexivity.
Qed.

Lemma flags_102_only_witness :
  exists df,
    detect_outliers_iqr (pd_DataFrame (record "B" 500 :: ten_records)) = Ok df
    /\ map obs (rows df) = record "B" 500 :: ten_records
    /\ map is_outlier (rows_of "A" (rows df))
       = [Some false; Some false; Some false; Some false; Some false;
          Some false; Some false; Some false; Some false; Some true].
Proof.
  apply (flags_102_only (record "B" 500 :: ten_records) "A").
  vm_compute. repeat (constructor; [reflexivity|]). constructor.
Defined.

(** C6: running the pass on its own result changes nothing; the two
    runs in sequence end as the first one does. *)
Theorem detect_outliers_iqr_idempotent (df : DataFrame) :
  (out <- detect_outliers_iqr df ;; detect_outliers_iqr out)
  = detect_outliers_iqr df.
Proof.
  rewrite (detect_outliers_iqr_eq df).
  destruct (has_column df "indicator_code"
            && (has_column df "value" || (List.length (rows df) =? 0)%nat))
    eqn:E; [|reflexivity].
  cbn [bind]. rewrite detect_outliers_iqr_eq.
  rewrite !Flags.flagged_has_column by reflexivity.
  rewrite Flags.flagged_length, E.
  now rewrite Flags.flagged_flagged.
Qed.

(** C7: when indicator [A] has the same values, in the same order, in
    two sets of records, and at least one, its records get the same
    flags in both, whatever the records of the other indicators are:
    the flags are the quartile rule of [A]'s values applied to each of
    them. *)
Theorem partition_independence
        (records records' : list Observation) (A : string) :
  same_values (values_of A (rows (pd_DataFrame records)))
              (values_of A (rows (pd_DataFrame records'))) ->
  values_of A (rows (pd_DataFrame records)) <> [] ->
  exists df df',
    detect_outliers_iqr (pd_DataFrame records) = Ok df
    /\ detect_outliers_iqr (pd_DataFrame records') = Ok df'
    /\ map is_outlier (rows_of A (rows df))
       = map is_outlier (rows_of A (rows df'))
    /\ map is_outlier (rows_of A (rows df))
       = map (fun v =>
                Some (outlier_rule
                        (values_of A (rows (pd_DataFrame records))) v))
             (values_of A (rows (pd_DataFrame records))).
Proof.
  intros H Hne.
  assert (Hne' : values_of A (rows (pd_DataFrame records')) <> []).
  { intros E. apply Hne. apply Forall2_length in H. rewrite E in H.
    now apply length_zero_iff_nil. }
  exists (flagged (pd_DataFrame records)), (flagged (pd_DataFrame records')).
  split; [|split; [|split]].
  - apply detect_outliers_iqr_readable, Flags.pd_DataFrame_readable.
    now apply (values_of_nonempty A).
  - apply detect_outliers_iqr_readable, Flags.pd_DataFrame_readable.
    now apply (values_of_nonempty A).
  - rewrite !Flags.flags_of_indicator. now apply Flags.flags_compat.
  - apply Flags.flags_of_indicator.
Qed.

Lemma partition_independence_witness :
  exists df df',
    detect_outliers_iqr (pd_DataFrame (record "B" 500 :: ten_records)) = Ok df
    /\ detect_outliers_iqr
         (pd_DataFrame (ten_records ++ [record "C" 1; record "C" 2])) = Ok df'
    /\ map is_outlier (rows_of "A" (rows df))
       = map is_outlier (rows_of "A" (rows df'))
    /\ map is_outlier (rows_of "A" (rows df))
       = map (fun v =>
                Some (outlier_rule
                        (values_of "A"
                           (rows (pd_DataFrame (record "B" 500 :: ten_records))))
                        v))
             (values_of "A"
                (rows (pd_DataFrame (record "B" 500 :: ten_records)))).
Proof.
  apply (partition_independence
           (record "B" 500 :: ten_records)
           (ten_records ++ [record "C" 1; record "C" 2]) "A").
  - vm_compute. repeat (constructor; [reflexivity|]). constructor.
  - vm_compute. discriminate.
Defined.

(** The quartile rule, read as the two strict comparisons. *)
Lemma outlier_rule_spec (vs : list Q) (v Q1 Q3 : Q) :
  quantile vs (1 # 4) = Some Q1 ->
  quantile vs (3 # 4) = Some Q3 ->
  (outlier_rule vs v = true
   <-> v < Q1 - (3 # 2) * (Q3 - Q1) \/ Q3 + (3 # 2) * (Q3 - Q1) < v)
  /\ (outlier_rule vs v = false
      <-> Q1 - (3 # 2) * (Q3 - Q1) <= v /\ v <= Q3 + (3 # 2) * (Q3 - Q1)).
Proof.
  intros E1 E3. unfold outlier_rule. rewrite E1, E3. split.
  - now rewrite orb_true_iff, !Qlt_bool_iff.
  - rewrite orb_false_iff. unfold Qlt_bool.
    rewrite !negb_false_iff, !Qle_bool_iff. reflexivity.
Qed.

(* ================================================================== *)
(** * Further properties of the quartile rule *)

Module Order.

Import Detector Quantile.

Local Open Scope Q_scope.

Lemma same_values_sym (l l' : list Q) : same_values l l' -> same_values l' l.
Proof.
  intros H. induction H; constructor; [now symmetry | assumption].
Qed.

Lemma same_values_trans (l1 l2 l3 : list Q) :
  same_values l1 l2 -> same_values l2 l3 -> same_values l1 l3.
Proof.
  intros H. revert l3.
  induction H as [|x y l l' Hxy H IH]; intros l3 H3; inversion H3; subst.
  - constructor.
  - constructor; [now transitivity y | now apply IH].
Qed.

Lemma Qle_bool_total (x y : Q) :
  Qle_bool x y = false -> Qle_bool y x = true.
Proof.
  intros H. apply Qle_bool_iff, Qlt_le_weak, Qnot_le_lt.
  intros Hle. apply Qle_bool_iff in Hle. congruence.
Qed.

(** Two insertions give the same values in either order. *)
Lemma insert_sorted_swap (x y : Q) (l : list Q) :
  same_values (insert_sorted x (insert_sorted y l))
              (insert_sorted y (insert_sorted x l)).
Proof.
  induction l as [|z l IH]; simpl.
  - destruct (Qle_bool x y) eqn:Exy, (Qle_bool y x) eqn:Eyx.
    + apply Qle_bool_iff in Exy, Eyx.
      assert (x == y) by now apply Qle_antisym.
      repeat constructor; [assumption | now symmetry].
    + apply same_values_refl.
    + apply same_values_refl.
    + apply Qle_bool_total in Exy. congruence.
  - destruct (Qle_bool x z) eqn:Exz, (Qle_bool y z) eqn:Eyz; simpl;
      rewrite ?Exz, ?Eyz.
    + destruct (Qle_bool x y) eqn:Exy, (Qle_bool y x) eqn:Eyx;
        rewrite ?Exz, ?Eyz.
      * apply Qle_bool_iff in Exy, Eyx.
        assert (x == y) by now apply Qle_antisym.
        constructor; [assumption|].
        constructor; [now symmetry | apply same_values_refl].
      * apply same_values_refl.
      * apply same_values_refl.
      * apply Qle_bool_total in Exy. congruence.
    + assert (Eyx : Qle_bool y x = false).
      { apply not_true_iff_false. intros Eyx.
        apply Qle_bool_iff in Eyx, Exz.
        assert (Hyz : y <= z) by now apply Qle_trans with x.
        apply Qle_bool_iff in Hyz. congruence. }
      rewrite Eyx. apply same_values_refl.
    + assert (Exy : Qle_bool x y = false).
      { apply not_true_iff_false. intros Exy.
        apply Qle_bool_iff in Exy, Eyz.
        assert (Hxz : x <= z) by now apply Qle_trans with y.
        apply Qle_bool_iff in Hxz. congruence. }
      rewrite Exy. apply same_values_refl.
    + constructor; [reflexivity | exact IH].
Qed.

(** Sorting forgets the order of its input. *)
Lemma sort_Permutation (l l' : list Q) :
  Permutation l l' -> same_values (sort l) (sort l').
Proof.
  intros H. induction H as [|x l l' H IH|x y l|l1 l2 l3 H12 IH12 H23 IH23].
  - constructor.
  - simpl. apply insert_sorted_compat; [reflexivity | exact IH].
  - simpl. apply insert_sorted_swap.
  - now apply same_values_trans with (sort l2).
Qed.

Lemma quantile_of_sorted (l l' : list Q) (q : Q) :
  List.length l = List.length l' ->
  same_values (sort l) (sort l') ->
  same_quantile (quantile l q) (quantile l' q).
Proof.
  intros Hlen Hs.
  destruct l as [|x l], l' as [|x' l']; try discriminate; [exact I|].
  unfold quantile. rewrite <- Hlen. cbv zeta. unfold same_quantile.
  rewrite (nth_compat _ _ _ Hs), (nth_compat _ _ (Nat.min _ _) Hs).
  reflexivity.
Qed.

Lemma outlier_rule_of_quartiles (l l' : list Q) (v : Q) :
  same_quantile (quantile l (1 # 4)) (quantile l' (1 # 4)) ->
  same_quantile (quantile l (3 # 4)) (quantile l' (3 # 4)) ->
  outlier_rule l v = outlier_rule l' v.
Proof.
  intros H1 H3. unfold outlier_rule.
  destruct (quantile l (1 # 4)) as [a|], (quantile l' (1 # 4)) as [a'|];
    simpl in H1; try contradiction; [|reflexivity].
  destruct (quantile l (3 # 4)) as [b|], (quantile l' (3 # 4)) as [b'|];
    simpl in H3; try contradiction; [|reflexivity].
  f_equal; apply Qlt_bool_compat; try reflexivity.
  - now rewrite H1, H3.
  - now rewrite H1, H3.
Qed.

Lemma outlier_rule_Permutation (l l' : list Q) (v : Q) :
  Permutation l l' -> outlier_rule l v = outlier_rule l' v.
Proof.
  intros H. apply outlier_rule_of_quartiles;
    (apply quantile_of_sorted;
     [now apply Permutation_length | now apply sort_Permutation]).
Qed.

Lemma filter_Permutation {A : Type} (f : A -> bool) (l l' : list A) :
  Permutation l l' -> Permutation (filter f l) (filter f l').
Proof.
  intros H. induction H as [|x l l' H IH|x y l|l1 l2 l3 H12 IH12 H23 IH23];
    simpl.
  - constructor.
  - destruct (f x); [now constructor | exact IH].
  - destruct (f x), (f y); try reflexivity. constructor.
  - now transitivity (filter f l2).
Qed.

Lemma values_of_Permutation (A : string) (rs rs' : list Row) :
  Permutation rs rs' -> Permutation (values_of A rs) (values_of A rs').
Proof.
  intros H. unfold values_of, rows_of.
  now apply Permutation_map, filter_Permutation.
Qed.

Lemma in_insert_sorted (x y : Q) (l : list Q) :
  In y (insert_sorted x l) <-> y = x \/ In y l.
Proof.
  induction l as [|z l IH]; simpl.
  - intuition.
  - destruct (Qle_bool x z); simpl; [intuition|].
    rewrite IH. intuition.
Qed.

Lemma in_sort (y : Q) (l : list Q) : In y (sort l) <-> In y l.
Proof.
  induction l as [|x l IH]; simpl; [reflexivity|].
  rewrite in_insert_sorted, IH. intuition.
Qed.

(** The parts of a quantile: the index below its position and the
    fraction left over. *)
Lemma quantile_parts (l : list Q) (q : Q) :
  l <> [] -> 0 <= q -> q <= 1 ->
  exists (i : nat) (g : Q),
    quantile l q
    = Some (nth i (sort l) 0
            + (nth (Nat.min (S i) (List.length l - 1)) (sort l) 0
               - nth i (sort l) 0) * g)
    /\ (i <= List.length l - 1)%nat
    /\ 0 <= g /\ g < 1
    /\ inject_Z (Z.of_nat i) + g
       == q * inject_Z (Z.of_nat (List.length l - 1)).
Proof.
  intros Hl H0 H1. destruct l as [|x l]; [congruence|].
  set (m := (List.length (x :: l) - 1)%nat).
  destruct (position_bounds q m H0 H1) as [P0 Pm].
  pose proof (floor_bounds _ m P0 Pm) as F.
  pose proof (Qfloor_le (q * inject_Z (Z.of_nat m))) as Hlo.
  pose proof (Qlt_floor (q * inject_Z (Z.of_nat m))) as Hhi.
  rewrite inject_Z_plus in Hhi. change (inject_Z 1) with 1 in Hhi.
  exists (Z.to_nat (Qfloor (q * inject_Z (Z.of_nat m)))),
         (q * inject_Z (Z.of_nat m)
          - inject_Z (Qfloor (q * inject_Z (Z.of_nat m)))).
  split; [reflexivity|].
  split; [lia|].
  split; [lra|]. split; [lra|].
  rewrite Z2Nat.id by lia. ring.
Qed.

(** Values that are all equal are all within the bounds. *)
Lemma equal_values_unflagged (vs : list Q) (V v : Q) :
  Forall (fun x => x == V) vs -> v == V -> outlier_rule vs v = false.
Proof.
  intros Hall Hv.
  destruct vs as [|x vs]; [reflexivity|].
  assert (Hvs : x :: vs <> []) by discriminate.
  destruct (quantile_parts _ (1 # 4) Hvs) as [i [g1 [E1 [Hi _]]]];
    [lra | lra |].
  destruct (quantile_parts _ (3 # 4) Hvs) as [j [g3 [E3 [Hj _]]]];
    [lra | lra |].
  set (m := (List.length (x :: vs) - 1)%nat) in *.
  set (s := sort (x :: vs)) in *.
  assert (Hn : List.length s = S m).
  { unfold s, m. rewrite sort_length. simpl. lia. }
  assert (Hs : Forall (fun y => y == V) s).
  { unfold s, sort. clear -Hall.
    induction Hall as [|y l Hy Hl IH]; simpl; [constructor|].
    now apply insert_sorted_Forall. }
  assert (Hnth : forall k, (k <= m)%nat -> nth k s 0 == V).
  { intros k Hk. rewrite Forall_forall in Hs. apply Hs, nth_In. lia. }
  apply (outlier_rule_spec _ v _ _ E1 E3).
  rewrite !(Hnth i), !(Hnth j), !(Hnth (Nat.min (S i) m)),
    !(Hnth (Nat.min (S j) m)), Hv by lia.
  split; ring_simplify; apply Qle_refl.
Qed.

End Order.

(* ================================================================== *)
(** * Further properties of detect_outliers_iqr and of the main program *)

(** The values of one indicator, read off the records alone. *)
Lemma values_of_obs (A : string) (rs : list Row) :
  Detector.values_of A rs
  = map value
        (filter (fun o => String.eqb (indicator_code o) A) (map obs rs)).
Proof.
  unfold Detector.values_of, Detector.rows_of.
  induction rs as [|r rs IH]; [reflexivity|].
  simpl. destruct (String.eqb (indicator_code (obs r)) A); simpl; now rewrite IH.
Qed.

Lemma flagged_rows_obs (rs : list Row) :
  map (fun r => mkRow (obs r) (Some (Detector.flag_in rs r))) rs
  = map (fun o =>
           mkRow o
                 (Some (outlier_rule
                          (map value
                               (filter (fun o' =>
                                          String.eqb (indicator_code o')
                                                     (indicator_code o))
                                       (map obs rs)))
                          (value o))))
        (map obs rs).
Proof.
  rewrite map_map. apply map_ext. intros r.
  unfold Detector.flag_in. now rewrite values_of_obs.
Qed.

(** X1: on a frame that has the columns indicator_code and value the
    pass returns; the result has the same records in the same order,
    every flag is set, and the columns are those of the input, with
    is_outlier put last when the input did not have it. *)
Theorem detect_keeps_frame (df : DataFrame) :
  Detector.readable df ->
  exists out,
    detect_outliers_iqr df = Ok out
    /\ map obs (rows out) = map obs (rows df)
    /\ Forall (fun r => exists b, is_outlier r = Some b) (rows out)
    /\ columns out
       = if has_column df "is_outlier" then columns df
         else columns df ++ ["is_outlier"].
Proof.
  intros H. exists (Detector.flagged df). split; [|split; [|split]].
  - now apply Detector.detect_outliers_iqr_readable.
  - unfold Detector.flagged. cbn [rows]. now rewrite map_map.
  - unfold Detector.flagged. cbn [rows]. apply Forall_forall. intros r Hr.
    apply in_map_iff in Hr. destruct Hr as [r0 [<- _]]. now eexists.
  - reflexivity.
Qed.

Lemma detect_keeps_frame_witness :
  exists out,
    detect_outliers_iqr
      (mkDataFrame ["value"; "is_outlier"; "indicator_code"]
                   [mkRow (Samples.record "A" 7) (Some true)]) = Ok out
    /\ map obs (rows out) = [Samples.record "A" 7]
    /\ Forall (fun r => exists b, is_outlier r = Some b) (rows out)
    /\ columns out = ["value"; "is_outlier"; "indicator_code"].
Proof.
  apply (detect_keeps_frame
           (mkDataFrame ["value"; "is_outlier"; "indicator_code"]
                        [mkRow (Samples.record "A" 7) (Some true)])).
  split; reflexivity.
Defined.

(** X2: the only exception the pass raises is KeyError, and it raises
    it exactly when the column indicator_code is missing, or the column
    value is missing and the frame has a row. *)
Theorem detect_raises_exactly (df : DataFrame) :
  (forall e, detect_outliers_iqr df = Raise e -> e = KeyError)
  /\ (raises (detect_outliers_iqr df)
      <-> has_column df "indicator_code" = false
          \/ (has_column df "value" = false /\ rows df <> [])).
Proof.
  rewrite Detector.detect_outliers_iqr_eq.
  destruct (has_column df "indicator_code"); simpl.
  - destruct (has_column df "value"); simpl.
    + split; [discriminate|]. split.
      * intros [e He]. discriminate.
      * intros [H|[H _]]; discriminate.
    + destruct (rows df) as [|r rs]; simpl.
      * split; [discriminate|]. split.
        -- intros [e He]. discriminate.
        -- intros [H|[_ H]]; [discriminate | congruence].
      * split; [congruence|]. split.
        -- intros _. right. split; [reflexivity | discriminate].
        -- intros _. now exists KeyError.
  - split; [congruence|]. split.
    + intros _. now left.
    + intros _. now exists KeyError.
Qed.

(** X3: the result does not depend on the flags the frame came with:
    two frames with the same columns and the same records have the same
    result. *)
Theorem stale_flags_ignored (df df' : DataFrame) :
  columns df = columns df' ->
  map obs (rows df) = map obs (rows df') ->
  detect_outliers_iqr df = detect_outliers_iqr df'.
Proof.
  intros Hc Hr.
  rewrite !Detector.detect_outliers_iqr_eq.
  unfold has_column. rewrite Hc.
  assert (Hlen : List.length (rows df) = List.length (rows df')).
  { rewrite <- (length_map obs (rows df)), Hr. apply length_map. }
  rewrite Hlen.
  assert (Hf : Detector.flagged df = Detector.flagged df').
  { unfold Detector.flagged. rewrite Hc. f_equal.
    now rewrite !flagged_rows_obs, Hr. }
  now rewrite Hf.
Qed.

Lemma stale_flags_ignored_witness :
  detect_outliers_iqr
    (mkDataFrame ["indicator_code"; "value"; "is_outlier"]
                 [mkRow (Samples.record "A" 7) (Some true)])
  = detect_outliers_iqr
      (mkDataFrame ["indicator_code"; "value"; "is_outlier"]
                   [mkRow (Samples.record "A" 7) None]).
Proof.
  apply (stale_flags_ignored
           (mkDataFrame ["indicator_code"; "value"; "is_outlier"]
                        [mkRow (Samples.record "A" 7) (Some true)])
           (mkDataFrame ["indicator_code"; "value"; "is_outlier"]
                        [mkRow (Samples.record "A" 7) None]));
    reflexivity.
Defined.

(** X4: the flags do not depend on the order of the rows: when the rows
    of two readable frames are a rearrangement of one another, so are
    the rows of the results, each record keeping its flag. *)
Theorem flags_order_insensitive (df df' : DataFrame) :
  Detector.readable df ->
  Detector.readable df' ->
  Permutation (rows df) (rows df') ->
  exists out out',
    detect_outliers_iqr df = Ok out
    /\ detect_outliers_iqr df' = Ok out'
    /\ Permutation (rows out) (rows out').
Proof.
  intros H H' Hp.
  exists (Detector.flagged df), (Detector.flagged df').
  split; [now apply Detector.detect_outliers_iqr_readable|].
  split; [now apply Detector.detect_outliers_iqr_readable|].
  unfold Detector.flagged. cbn [rows].
  assert (E : map (fun r => mkRow (obs r)
                                  (Some (Detector.flag_in (rows df') r)))
                  (rows df')
              = map (fun r => mkRow (obs r)
                                    (Some (Detector.flag_in (rows df) r)))
                    (rows df')).
  { apply map_ext. intros r. do 2 f_equal. unfold Detector.flag_in.
    apply Order.outlier_rule_Permutation, Order.values_of_Permutation.
    now symmetry. }
  rewrite E. now apply Permutation_map.
Qed.

Lemma flags_order_insensitive_witness :
  exists out out',
    detect_outliers_iqr
      (pd_DataFrame [Samples.record "A" 7; Samples.record "A" 900;
                     Samples.record "B" 1]) = Ok out
    /\ detect_outliers_iqr
         (pd_DataFrame [Samples.record "A" 900; Samples.record "A" 7;
                        Samples.record "B" 1]) = Ok out'
    /\ Permutation (rows out) (rows out').
Proof.
  apply (flags_order_insensitive
           (pd_DataFrame [Samples.record "A" 7; Samples.record "A" 900;
                          Samples.record "B" 1])
           (pd_DataFrame [Samples.record "A" 900; Samples.record "A" 7;
                          Samples.record "B" 1])).
  - split; reflexivity.
  - split; reflexivity.
  - apply perm_swap.
Defined.

(** X5: an indicator whose values are all equal has none of its records
    flagged, however many they are. *)
Theorem constant_indicator_unflagged (df : DataFrame) (A : string) (V : Q) :
  Detector.readable df ->
  Forall (fun x => x == V) (Detector.values_of A (rows df)) ->
  exists out,
    detect_outliers_iqr df = Ok out
    /\ Forall (fun r => is_outlier r = Some false)
              (Detector.rows_of A (rows out)).
Proof.
  intros H Hall. exists (Detector.flagged df).
  split; [now apply Detector.detect_outliers_iqr_readable|].
  rewrite Flags.rows_of_flagged. apply Forall_forall. intros r Hr.
  apply in_map_iff in Hr. destruct Hr as [r0 [<- Hr0]]. cbn [is_outlier].
  f_equal. unfold Detector.flag_in.
  unfold Detector.rows_of in Hr0. apply filter_In in Hr0.
  destruct Hr0 as [Hin HA]. apply String.eqb_eq in HA. rewrite HA.
  apply (Order.equal_values_unflagged _ V); [exact Hall|].
  rewrite Forall_forall in Hall. apply Hall.
  unfold Detector.values_of.
  apply (in_map (fun r => value (obs r))).
  unfold Detector.rows_of. apply filter_In. split; [exact Hin|].
  now apply String.eqb_eq.
Qed.

Lemma constant_indicator_unflagged_witness :
  exists out,
    detect_outliers_iqr
      (pd_DataFrame [Samples.record "A" 7; Samples.record "B" 1;
                     Samples.record "A" (14 # 2); Samples.record "A" 7])
    = Ok out
    /\ Forall (fun r => is_outlier r = Some false)
              (Detector.rows_of "A" (rows out)).
Proof.
  apply (constant_indicator_unflagged
           (pd_DataFrame [Samples.record "A" 7; Samples.record "B" 1;
                          Samples.record "A" (14 # 2); Samples.record "A" 7])
           "A" 7).
  - split; reflexivity.
  - vm_compute. repeat (constructor; [reflexivity|]). constructor.
Defined.

(** X7: the main program reaches the load exactly when at least one
    observation was extracted.  The frame it hands to the load then has
    the eight columns, the extracted records in their order and every
    flag set; without observations the run ends on KeyError. *)
Theorem main_reaches_load (groups : groups_t) (indicators : indicators_t)
        (net : network) :
  match all_data groups indicators net with
  | [] => main groups indicators net = Aborted KeyError
  | _ :: _ =>
      exists df_clean,
        main groups indicators net = Loaded df_clean
        /\ columns df_clean = observation_columns ++ ["is_outlier"]
        /\ map obs (rows df_clean) = all_data groups indicators net
        /\ Forall (fun r => exists b, is_outlier r = Some b) (rows df_clean)
  end.
Proof.
  unfold main, fetch_data.
  destruct (all_data groups indicators net) as [|o records] eqn:E.
  - reflexivity.
  - rewrite Detector.detect_outliers_iqr_readable by (split; reflexivity).
    eexists. split; [reflexivity|]. split; [reflexivity|]. split.
    + unfold Detector.flagged. cbn [rows]. rewrite map_map. cbn [obs].
      apply (Flags.obs_pd_DataFrame (o :: records)).
    + unfold Detector.flagged. cbn [rows]. apply Forall_forall. intros r Hr.
      apply in_map_iff in Hr. destruct Hr as [r0 [<- _]]. now eexists.
Qed.

(* ================================================================== *)
(** * Further properties of fetch_data *)

(** Whether [entry["value"] is not None] is reached and holds. *)
Definition has_value (entry : json) : bool :=
  match py_getitem entry "value" with
  | Ok JNull => false
  | Ok _ => true
  | Raise _ => false
  end.

Lemma for_entries_completes (t : FetchTask) (entries : list json)
      (acc : list Observation) :
  snd (for_entries t entries acc) = Ok tt
  <-> Forall (entry_passes t) entries.
Proof.
  revert acc. induction entries as [|e entries IH]; intros acc; simpl.
  - split; [constructor | reflexivity].
  - destruct (entry_step t e) as [[o|]|x] eqn:E.
    + rewrite IH. split.
      * intros H. constructor; [|exact H].
        intros [x Hx]. unfold entry_passes in *. congruence.
      * intros H. now inversion H.
    + rewrite IH. split.
      * intros H. constructor; [|exact H].
        intros [x Hx]. congruence.
      * intros H. now inversion H.
    + simpl. split; [discriminate|].
      intros H. inversion H as [|? ? He _]; subst.
      exfalso. apply He. now exists x.
Qed.

Lemma before_raise_all (t : FetchTask) (entries : list json) :
  Forall (entry_passes t) entries -> Fetch.before_raise t entries = entries.
Proof.
  intros H. induction H as [|e entries He H IH]; simpl; [reflexivity|].
  destruct (entry_step t e) as [r|x] eqn:E.
  - now rewrite IH.
  - exfalso. apply He. now exists x.
Qed.

(** X9: the result holds the contributions of the requests in the order
    in which they were submitted, each request contributing what it
    would contribute alone. *)
Theorem fetched_in_submission_order
        (groups : groups_t) (indicators : indicators_t) (net : network) :
  fetched groups indicators net
  = flat_map (fun f => handle_future [] f) (futures groups indicators net).
Proof.
  rewrite fetched_all_data. apply Fetch.all_data_eq.
Qed.

(** X10: the [try] block of a response ends without an exception
    exactly when the body has an entry sequence (none when it has fewer
    than two elements) and no entry's turn raises; [all_data] then grows
    by the observations of all the entries, in their order. *)
Theorem try_body_completes (t : FetchTask) (data : json)
        (acc : list Observation) :
  snd (try_body t data acc) = Ok tt
  <-> exists entries,
        Fetch.entries_of data = Some entries
        /\ Forall (entry_passes t) entries
        /\ fst (try_body t data acc)
           = acc ++ flat_map (Fetch.emitted t) entries.
Proof.
  split.
  - intros H.
    assert (Hfst := Fetch.try_body_eq t data acc).
    unfold try_body in H. unfold Fetch.entries_of in *.
    destruct (py_len data) as [n|x]; [|discriminate].
    destruct (n <? 2)%nat.
    + exists []. split; [reflexivity|]. split; [constructor | exact Hfst].
    + destruct (d1 <- py_getitem_int data 1 ;; py_iter d1) as [entries|x];
        [|discriminate].
      apply for_entries_completes in H.
      exists entries. split; [reflexivity|]. split; [exact H|].
      now rewrite (before_raise_all t entries H) in Hfst.
  - intros [entries [He [Hall _]]].
    unfold try_body. unfold Fetch.entries_of in He.
    destruct (py_len data) as [n|x]; [|discriminate].
    destruct (n <? 2)%nat; [reflexivity|].
    destruct (d1 <- py_getitem_int data 1 ;; py_iter d1) as [entries'|x];
      [|discriminate].
    injection He as ->. now apply for_entries_completes.
Qed.

(** X11: an entry whose value is null can be taken out of a response
    without changing what the loop over the response does, whatever the
    other fields of the entry are. *)
Theorem null_entry_is_skipped (t : FetchTask) (pre post : list json)
        (entry : json) (acc : list Observation) :
  py_getitem entry "value" = Ok JNull ->
  for_entries t (pre ++ entry :: post) acc = for_entries t (pre ++ post) acc.
Proof.
  intros H. revert acc.
  induction pre as [|e pre IH]; intros acc; simpl.
  - unfold entry_step at 1. now rewrite H.
  - destruct (entry_step t e) as [[o|]|x]; [apply IH | apply IH | reflexivity].
Qed.

Lemma null_entry_is_skipped_witness :
  for_entries Samples.first_task
    ([Samples.good_2001]
       ++ JObj [("value", JNull); ("date", JStr "n/a")] :: [Samples.good_2004])
    []
  = for_entries Samples.first_task
      ([Samples.good_2001] ++ [Samples.good_2004]) [].
Proof.
  apply (null_entry_is_skipped
           Samples.first_task [Samples.good_2001] [Samples.good_2004]
           (JObj [("value", JNull); ("date", JStr "n/a")]) []).
  reflexivity.
Defined.

Lemma emitted_length (t : FetchTask) (e : json) :
  entry_passes t e ->
  List.length (Fetch.emitted t e) = if has_value e then 1%nat else 0%nat.
Proof.
  intros He. unfold Fetch.emitted, has_value.
  destruct (entry_step t e) as [r|x] eqn:E.
  - unfold entry_step in E.
    destruct (py_getitem e "value") as [v|x]; [|discriminate].
    simpl in E.
    destruct v; try (injection E as <-; reflexivity);
      (destruct (observation_of t e); simpl in E;
       [injection E as <-; reflexivity | discriminate]).
  - exfalso. apply He. now exists x.
Qed.

(** X12: a response none of whose entries raises contributes one
    observation for each entry with a value that is not null. *)
Theorem one_observation_per_value (t : FetchTask) (data : json)
        (entries : list json) :
  Fetch.entries_of data = Some entries ->
  Forall (entry_passes t) entries ->
  List.length (handle_future [] (Body data, t))
  = List.length (filter has_value entries).
Proof.
  intros He Hall.
  change (handle_future [] (Body data, t))
    with (Fetch.contribution (Body data, t)).
  rewrite Fetch.contribution_body, He, (before_raise_all t entries Hall).
  clear He. induction Hall as [|e entries Hpass Hall IH]; [reflexivity|].
  simpl. rewrite length_app, IH, (emitted_length t e Hpass).
  destruct (has_value e); reflexivity.
Qed.

Lemma one_observation_per_value_witness :
  List.length
    (handle_future []
       (Body (Samples.wb_body [Samples.good_2001; Samples.null_2002;
                               Samples.good_2004; Samples.early_1999]),
        Samples.first_task))
  = List.length
      (filter has_value [Samples.good_2001; Samples.null_2002;
                         Samples.good_2004; Samples.early_1999]).
Proof.
  apply (one_observation_per_value
           Samples.first_task
           (Samples.wb_body [Samples.good_2001; Samples.null_2002;
                             Samples.good_2004; Samples.early_1999])
           [Samples.good_2001; Samples.null_2002;
            Samples.good_2004; Samples.early_1999]).
  - reflexivity.
  - repeat constructor; intros [x Hx]; vm_compute in Hx; discriminate.
Defined.

Lemma py_getitem_Ok (x : json) (key : string) (v : json) :
  py_getitem x key = Ok v ->
  exists fields, x = JObj fields /\ lookup key fields = Some v.
Proof.
  destruct x; simpl; try discriminate.
  intros H. exists fields. split; [reflexivity|].
  destruct (lookup key fields); [congruence | discriminate].
Qed.

Lemma entries_of_shape (data : json) (entries : list json)
      (fields : list (string * json)) :
  Fetch.entries_of data = Some entries ->
  In (JObj fields) entries ->
  exists items, data = JArr items /\ nth_error items 1 = Some (JArr entries).
Proof.
  unfold Fetch.entries_of. intros H Hin.
  destruct data as [| b | n | q | s | items | kv];
    cbn [py_len py_getitem_int] in H; try discriminate.
  - destruct (String.length s <? 2)%nat.
    + injection H as <-. contradiction.
    + destruct (String.get 1 s) as [c|]; cbn [bind py_iter] in H;
        [|discriminate].
      injection H as <-. simpl in Hin. destruct Hin as [Hin|[]].
      discriminate.
  - destruct (List.length items <? 2)%nat.
    + injection H as <-. contradiction.
    + destruct (nth_error items 1) as [d1|] eqn:E1; cbn [bind] in H;
        [|discriminate].
      exists items. split; [reflexivity|].
      destruct d1 as [| b | n | q | s | es | kv]; cbn [py_iter] in H;
        try discriminate; injection H as <-.
      * apply in_map_iff in Hin. destruct Hin as [c [Hc _]]. discriminate.
      * exact E1.
      * apply in_map_iff in Hin. destruct Hin as [c [Hc _]]. discriminate.
  - destruct (List.length kv <? 2)%nat.
    + injection H as <-. contradiction.
    + discriminate.
Qed.

(** X13: an observation only comes out of a body that is an array whose
    second element is an array, and of an entry of it that is an object
    with a value that is not null, a date and a country object holding
    id and value; the observation's country, country code, year and
    value are read from these fields. *)
Theorem observation_needs_shape (oc : outcome) (t : FetchTask)
        (o : Observation) :
  In o (handle_future [] (oc, t)) ->
  exists items entries fields cfields d v,
    oc = Body (JArr items)
    /\ nth_error items 1 = Some (JArr entries)
    /\ In (JObj fields) entries
    /\ lookup "value" fields = Some v /\ v <> JNull
    /\ lookup "date" fields = Some d
    /\ lookup "country" fields = Some (JObj cfields)
    /\ lookup "value" cfields = Some (country o)
    /\ lookup "id" cfields = Some (country_code o)
    /\ py_int d = Ok (year o)
    /\ py_float v = Ok (value o).
Proof.
  change (handle_future [] (oc, t)) with (Fetch.contribution (oc, t)).
  intros Ho. destruct oc as [x|x|data]; try contradiction.
  rewrite Fetch.contribution_body in Ho.
  destruct (Fetch.entries_of data) as [entries|] eqn:Hdata; [|contradiction].
  apply in_flat_map in Ho. destruct Ho as [e [He Ho]].
  apply Fetch.before_raise_incl in He.
  apply Fetch.in_emitted in Ho.
  assert (Hv : exists v, py_getitem e "value" = Ok v /\ v <> JNull).
  { unfold entry_step in Ho.
    destruct (py_getitem e "value") as [v|x]; [|discriminate].
    exists v. split; [reflexivity|]. intros ->. discriminate. }
  destruct Hv as [v [Hv Hnull]].
  apply Fetch.entry_step_observation, Fetch.observation_of_fields in Ho.
  destruct Ho as [_ [_ [_ [Ename [Eid [Ey Ex]]]]]].
  destruct (py_getitem_Ok e "value" v Hv) as [fields [-> Lv]].
  destruct (entries_of_shape data entries fields Hdata He) as [items [-> Hn]].
  rewrite Hv in Ex. simpl in Ex.
  apply Fetch.bind_Ok in Ey. destruct Ey as [d [Ed Ey]].
  apply Fetch.bind_Ok in Ename. destruct Ename as [c [Ec Ename]].
  rewrite Ec in Eid. simpl in Eid.
  destruct (py_getitem_Ok _ _ _ Ed) as [fields' [Ef Ld]].
  injection Ef as <-.
  destruct (py_getitem_Ok _ _ _ Ec) as [fields' [Ef Lc]].
  injection Ef as <-.
  destruct (py_getitem_Ok _ _ _ Ename) as [cfields [-> Lname]].
  destruct (py_getitem_Ok _ _ _ Eid) as [cfields' [Ef Lid]].
  injection Ef as <-.
  exists items, entries, fields, cfields, d, v.
  repeat split; assumption.
Qed.

Lemma observation_needs_shape_witness :
  exists items entries fields cfields d v,
    Body (Samples.wb_body [Samples.good_2004]) = Body (JArr items)
    /\ nth_error items 1 = Some (JArr entries)
    /\ In (JObj fields) entries
    /\ lookup "value" fields = Some v /\ v <> JNull
    /\ lookup "date" fields = Some d
    /\ lookup "country" fields = Some (JObj cfields)
    /\ lookup "value" cfields = Some (country Samples.obs_2004)
    /\ lookup "id" cfields = Some (country_code Samples.obs_2004)
    /\ py_int d = Ok (year Samples.obs_2004)
    /\ py_float v = Ok (value Samples.obs_2004).
Proof.
  apply (observation_needs_shape
           (Body (Samples.wb_body [Samples.good_2004]))
           Samples.first_task Samples.obs_2004).
  vm_compute. now left.
Defined.

(* ================================================================== *)
(** * Further properties of the task enumeration *)

(** The number in "Starting extraction for ... endpoints". *)
Definition announced_endpoints (groups : groups_t)
  (indicators : indicators_t) : nat :=
  (List.length (tasks groups) * List.length indicators)%nat.

Definition pair_eq_dec (x y : string * string) : {x = y} + {x <> y}.
Proof. decide equality; apply string_dec. Defined.

Definition FetchTask_eq_dec (x y : FetchTask) : {x = y} + {x <> y}.
Proof. decide equality; apply string_dec. Defined.

Lemma nth_error_flat_map_block {A B : Type} (f : A -> list B) (n : nat)
      (l : list A) (i j : nat) (x : A) (y : B) :
  (forall a, List.length (f a) = n) ->
  nth_error l i = Some x ->
  nth_error (f x) j = Some y ->
  nth_error (flat_map f l) (i * n + j) = Some y.
Proof.
  intros Hn. revert i. induction l as [|a l IH]; intros i Hi Hj.
  - destruct i; discriminate.
  - destruct i as [|i]; simpl in Hi |- *.
    + injection Hi as ->. rewrite nth_error_app1; [exact Hj|].
      apply nth_error_Some. congruence.
    + rewrite nth_error_app2 by (rewrite Hn; lia).
      rewrite Hn.
      replace (n + i * n + j - n)%nat with (i * n + j)%nat by lia.
      now apply IH.
Qed.

Lemma nth_error_combine_net (net : network) (l : list FetchTask)
      (start k : nat) (t : FetchTask) :
  nth_error l k = Some t ->
  nth_error (combine (map net (seq start (List.length l))) l) k
  = Some (net (start + k)%nat, t).
Proof.
  revert start k. induction l as [|a l IH]; intros start k Hk.
  - destruct k; discriminate.
  - destruct k as [|k]; simpl in Hk |- *.
    + injection Hk as ->. now rewrite Nat.add_0_r.
    + rewrite (IH (S start) k Hk). now rewrite Nat.add_succ_r.
Qed.

(** X14: the number of endpoints the program announces is the number of
    requests it submits, for every configuration: the number of
    countries, counted group by group, times the number of indicators. *)
Theorem announced_is_submitted (groups : groups_t)
        (indicators : indicators_t) (net : network) :
  List.length (futures groups indicators net)
  = announced_endpoints groups indicators
  /\ announced_endpoints groups indicators
     = (country_count groups * List.length indicators)%nat.
Proof.
  unfold announced_endpoints. split.
  - rewrite <- (length_map snd), Enumerator.futures_requests.
    apply Enumerator.length_requests.
  - now rewrite Enumerator.length_tasks.
Qed.

(** X15: the requests are submitted country by country: the request in
    position [i * |indicators| + j] is the one of the [i]-th
    (country, group) pair for the [j]-th indicator, and its outcome is
    the one the network gives for that position. *)
Theorem request_position (groups : groups_t) (indicators : indicators_t)
        (net : network) (i j : nat) (c g ic iname : string) :
  nth_error (tasks groups) i = Some (c, g) ->
  nth_error indicators j = Some (ic, iname) ->
  nth_error (futures groups indicators net)
            (i * List.length indicators + j)
  = Some (net (i * List.length indicators + j)%nat, mkTask c g ic iname).
Proof.
  intros Hi Hj. unfold futures.
  apply (nth_error_combine_net net (requests groups indicators) 0).
  unfold requests.
  apply (nth_error_flat_map_block _ (List.length indicators) _ i j (c, g)).
  - intros a. apply length_map.
  - exact Hi.
  - simpl. rewrite nth_error_map, Hj. reflexivity.
Qed.

Lemma request_position_witness :
  nth_error (futures COUNTRY_GROUPS INDICATORS Samples.all_fail)
            (8 * List.length INDICATORS + 2)
  = Some (Samples.all_fail (8 * List.length INDICATORS + 2)%nat,
          mkTask "ZAF" "AFRICA_TOP5" "BX.KLT.DINV.WD.GD.ZS" "FDI (% of GDP)").
Proof.
  apply (request_position COUNTRY_GROUPS INDICATORS Samples.all_fail 8 2
                          "ZAF" "AFRICA_TOP5"
                          "BX.KLT.DINV.WD.GD.ZS" "FDI (% of GDP)");
    reflexivity.
Defined.

Lemma count_occ_requests_block (c g c' g' ic iname : string)
      (indicators : indicators_t) :
  count_occ FetchTask_eq_dec
            (map (fun ind => mkTask c' g' (fst ind) (snd ind)) indicators)
            (mkTask c g ic iname)
  = if pair_eq_dec (c', g') (c, g)
    then count_occ pair_eq_dec indicators (ic, iname)
    else 0%nat.
Proof.
  induction indicators as [|[ic' iname'] indicators IH];
    cbn [map count_occ fst snd].
  - now destruct (pair_eq_dec (c', g') (c, g)).
  - destruct (FetchTask_eq_dec (mkTask c' g' ic' iname') (mkTask c g ic iname))
      as [E|NE].
    + injection E as -> -> -> ->. rewrite IH.
      destruct (pair_eq_dec (c, g) (c, g)); [|congruence].
      destruct (pair_eq_dec (ic, iname) (ic, iname)); [reflexivity|congruence].
    + rewrite IH.
      destruct (pair_eq_dec (c', g') (c, g)) as [E|]; [|reflexivity].
      injection E as -> ->.
      destruct (pair_eq_dec (ic', iname') (ic, iname)) as [E|]; [|reflexivity].
      injection E as -> ->. congruence.
Qed.

(** X16: nothing is deduplicated: a task is submitted as many times as
    its (country, group) pair occurs in the task list times the number
    of times its indicator occurs in the indicator table. *)
Theorem requests_are_not_deduplicated
        (groups : groups_t) (indicators : indicators_t) (net : network)
        (c g ic iname : string) :
  count_occ FetchTask_eq_dec (map snd (futures groups indicators net))
            (mkTask c g ic iname)
  = (count_occ pair_eq_dec (tasks groups) (c, g)
     * count_occ pair_eq_dec indicators (ic, iname))%nat.
Proof.
  rewrite Enumerator.futures_requests. unfold requests.
  induction (tasks groups) as [|[c' g'] l IH]; [reflexivity|].
  cbn [flat_map fst snd]. rewrite count_occ_app, IH, count_occ_requests_block.
  cbn [count_occ].
  destruct (pair_eq_dec (c', g') (c, g)); lia.
Qed.

(* ================================================================== *)
(** * The strings the program builds: the request URL and DB_CONFIG *)

(** An integer inside an f-string. *)
Definition py_str (z : Z) : string := NilZero.string_of_int (Z.to_int z).

(** The URL of lines 57-60. *)
Definition url (country_code ind_code : string) : string :=
  ("https://api.worldbank.org/v2/country/" ++ country_code
   ++ "/indicator/" ++ ind_code
   ++ "?date=" ++ py_str START_YEAR ++ ":" ++ py_str END_YEAR
   ++ "&format=json&per_page=100")%string.

(** [os.getenv]: the value of a variable, or None. *)
Definition environment : Type := string -> option string.

(** A value of [os.getenv] inside an f-string. *)
Definition py_format (x : option string) : string :=
  match x with
  | Some s => s
  | None => "None"
  end.

(** The connection string of line 21. *)
Definition DB_CONFIG (getenv : environment) : string :=
  ("mysql+mysqlconnector://" ++ py_format (getenv "DB_USER")
   ++ ":" ++ py_format (getenv "DB_PASSWORD")
   ++ "@" ++ py_format (getenv "DB_HOST")
   ++ "/" ++ py_format (getenv "DB_NAME"))%string.

(** The string has no occurrence of the character. *)
Fixpoint free_of (ch : ascii) (s : string) : bool :=
  match s with
  | EmptyString => true
  | String a rest => negb (Ascii.eqb a ch) && free_of ch rest
  end.

Example url_of_first_task :
  url "USA" "NY.GDP.MKTP.KD.ZG"
  = "https://api.worldbank.org/v2/country/USA/indicator/NY.GDP.MKTP.KD.ZG?date=2000:2024&format=json&per_page=100".
Proof. reflexivity. Qed.

Lemma append_head_inj (p s s' : string) :
  (p ++ s)%string = (p ++ s')%string -> s = s'.
Proof.
  induction p as [|a p IH]; simpl; intros H; [exact H|].
  injection H as H. now apply IH.
Qed.

Lemma length_append (s t : string) :
  String.length (s ++ t)%string = (String.length s + String.length t)%nat.
Proof. induction s as [|a s IH]; simpl; [reflexivity | now rewrite IH]. Qed.

Lemma append_tail_inj (s s' t : string) :
  (s ++ t)%string = (s' ++ t)%string -> s = s'.
Proof.
  revert s'. induction s as [|a s IH]; intros [|a' s'] H; simpl in H.
  - reflexivity.
  - apply (f_equal String.length) in H. simpl in H.
    rewrite length_append in H. lia.
  - apply (f_equal String.length) in H. simpl in H.
    rewrite length_append in H. lia.
  - injection H as -> H. f_equal. now apply IH.
Qed.

(** Two strings cut at the first occurrence of a separator. *)
Lemma separator_split (ch : ascii) (c c' r r' : string) :
  free_of ch c = true -> free_of ch c' = true ->
  (c ++ String ch r)%string = (c' ++ String ch r')%string ->
  c = c' /\ r = r'.
Proof.
  revert c'. induction c as [|a c IH]; intros [|a' c'] Hc Hc' H;
    simpl in H, Hc, Hc'.
  - injection H as H. now split.
  - injection H as <- _. rewrite Ascii.eqb_refl in Hc'. discriminate.
  - injection H as -> _. rewrite Ascii.eqb_refl in Hc. discriminate.
  - injection H as -> H.
    apply andb_true_iff in Hc, Hc'.
    destruct (IH c' (proj2 Hc) (proj2 Hc') H) as [-> ->]. now split.
Qed.

(** Two URLs built from country codes without a slash are equal only
    for the same country code and the same indicator code. *)
Lemma url_injective (c c' i i' : string) :
  free_of "/" c = true -> free_of "/" c' = true ->
  url c i = url c' i' -> c = c' /\ i = i'.
Proof.
  intros Hc Hc' H. unfold url in H.
  apply append_head_inj in H.
  change ("/indicator/" ++ ?x)%string
    with (String "/" ("indicator/" ++ x)%string) in H.
  destruct (separator_split "/" c c' _ _ Hc Hc' H) as [-> H'].
  split; [reflexivity|].
  apply append_head_inj in H'. now apply append_tail_inj in H'.
Qed.

(** The URL a task is requested at. *)
Definition task_url (t : FetchTask) : string :=
  url (t_country_code t) (t_ind_code t).

(** X17: two tasks whose country codes hold no slash are requested at
    the same URL exactly when they have the same country code and the
    same indicator code; the group and the indicator name are not part
    of the URL. *)
Theorem task_url_same_iff (t t' : FetchTask) :
  free_of "/" (t_country_code t) = true ->
  free_of "/" (t_country_code t') = true ->
  task_url t = task_url t'
  <-> t_country_code t = t_country_code t' /\ t_ind_code t = t_ind_code t'.
Proof.
  intros Hc Hc'. unfold task_url. split.
  - now apply url_injective.
  - intros [-> ->]. reflexivity.
Qed.

Lemma task_url_same_iff_witness :
  (task_url (mkTask "USA" "G7" "FP.CPI.TOTL.ZG" "Inflation (%)")
   = task_url (mkTask "USA" "NATO" "FP.CPI.TOTL.ZG" "Inflation (%)")
   <-> "USA" = "USA" /\ "FP.CPI.TOTL.ZG" = "FP.CPI.TOTL.ZG")
  /\ (task_url (mkTask "USA" "G7" "FP.CPI.TOTL.ZG" "Inflation (%)")
      = task_url (mkTask "GBR" "G7" "FP.CPI.TOTL.ZG" "Inflation (%)")
      <-> "USA" = "GBR" /\ "FP.CPI.TOTL.ZG" = "FP.CPI.TOTL.ZG").
Proof.
  split.
  - apply (task_url_same_iff
             (mkTask "USA" "G7" "FP.CPI.TOTL.ZG" "Inflation (%)")
             (mkTask "USA" "NATO" "FP.CPI.TOTL.ZG" "Inflation (%)"));
      reflexivity.
  - apply (task_url_same_iff
             (mkTask "USA" "G7" "FP.CPI.TOTL.ZG" "Inflation (%)")
             (mkTask "GBR" "G7" "FP.CPI.TOTL.ZG" "Inflation (%)"));
      reflexivity.
Defined.

(** X18: when the user holds no colon, the password no at-sign and the
    host no slash, the connection string determines the four values it
    was built from, an unset variable counting as the text None. *)
Theorem DB_CONFIG_unambiguous (getenv getenv' : environment) :
  free_of ":" (py_format (getenv "DB_USER")) = true ->
  free_of ":" (py_format (getenv' "DB_USER")) = true ->
  free_of "@" (py_format (getenv "DB_PASSWORD")) = true ->
  free_of "@" (py_format (getenv' "DB_PASSWORD")) = true ->
  free_of "/" (py_format (getenv "DB_HOST")) = true ->
  free_of "/" (py_format (getenv' "DB_HOST")) = true ->
  DB_CONFIG getenv = DB_CONFIG getenv' ->
  py_format (getenv "DB_USER") = py_format (getenv' "DB_USER")
  /\ py_format (getenv "DB_PASSWORD") = py_format (getenv' "DB_PASSWORD")
  /\ py_format (getenv "DB_HOST") = py_format (getenv' "DB_HOST")
  /\ py_format (getenv "DB_NAME") = py_format (getenv' "DB_NAME").
Proof.
  intros Hu Hu' Hp Hp' Hh Hh' H. unfold DB_CONFIG in H.
  apply append_head_inj in H.
  change (":" ++ ?x)%string with (String ":" x) in H.
  destruct (separator_split ":" _ _ _ _ Hu Hu' H) as [Eu H1].
  change ("@" ++ ?x)%string with (String "@" x) in H1.
  destruct (separator_split "@" _ _ _ _ Hp Hp' H1) as [Ep H2].
  change ("/" ++ ?x)%string with (String "/" x) in H2.
  destruct (separator_split "/" _ _ _ _ Hh Hh' H2) as [Eh En].
  now repeat split.
Qed.

Definition sample_environment : environment :=
  fun name =>
    if String.eqb name "DB_USER" then Some "etl"
    else if String.eqb name "DB_PASSWORD" then Some "s3cr:t/"
    else if String.eqb name "DB_HOST" then Some "db.example.org:3306"
    else None.

Lemma DB_CONFIG_unambiguous_witness :
  py_format (sample_environment "DB_USER")
  = py_format (sample_environment "DB_USER")
  /\ py_format (sample_environment "DB_PASSWORD")
     = py_format (sample_environment "DB_PASSWORD")
  /\ py_format (sample_environment "DB_HOST")
     = py_format (sample_environment "DB_HOST")
  /\ py_format (sample_environment "DB_NAME")
     = py_format (sample_environment "DB_NAME").
Proof.
  apply (DB_CONFIG_unambiguous sample_environment sample_environment);
    reflexivity.
Defined.

(* ================================================================== *)
(** * The outlier pass in binary64

    The value column holds float64.  Here the pass is modelled with the
    machine's binary64 numbers and operations (round to nearest, ties
    to even; infinities and NaN included), for the statement whose truth
    depends on them.  The frame, the assignment of the columns and the
    loop over the indicators are those of [detect_outliers_iqr]; only
    the type of the values and the arithmetic differ. *)

From Stdlib Require Import Floats.

Set Warnings "-inexact-float".

Module Binary64.

#[local] Arguments String.eqb : simpl never.

(** ** Records and frames with float64 values *)

Record Observation64 : Type := mkObservation64 {
  country64 : json;
  country_code64 : json;
  country_group64 : string;
  indicator_code64 : string;
  indicator_name64 : string;
  year64 : Z;
  value64 : float
}.

Record Row64 : Type := mkRow64 {
  obs64 : Observation64;
  is_outlier64 : option bool
}.

Record DataFrame64 : Type := mkDataFrame64 {
  columns64 : list string;
  rows64 : list Row64
}.

Definition pd_DataFrame64 (records : list Observation64) : DataFrame64 :=
  mkDataFrame64
    (match records with [] => [] | _ :: _ => observation_columns end)
    (map (fun o => mkRow64 o None) records).

(** ** Series.quantile in binary64 *)

Definition notna (v : float) : bool := negb (is_nan v).

Fixpoint insert64 (x : float) (l : list float) : list float :=
  match l with
  | [] => [x]
  | y :: rest => if (x <=? y)%float then x :: l else y :: insert64 x rest
  end.

Definition sort64 (l : list float) : list float :=
  fold_right insert64 [] l.

(** numpy's [_lerp(a, b, t)]: [a + (b - a) * t], replaced by
    [b - (b - a) * (1 - t)] where [t >= 0.5]. *)
Definition lerp (a b t : float) : float :=
  let diff_b_a := (b - a)%float in
  if (0.5 <=? t)%float then (b - diff_b_a * (1 - t))%float
  else (a + diff_b_a * t)%float.

(** The fraction of a position counted in quarters. *)
Definition quarters (r : nat) : float :=
  match r with
  | 0%nat => 0%float
  | 1%nat => 0.25%float
  | 2%nat => 0.5%float
  | _ => 0.75%float
  end.

(** The linear method on sorted values, for the quantile [k]/4.  The
    position (n - 1) * q, its floor and its fraction are exact in
    binary64 for q = 0.25 and q = 0.75 (and any n a frame can hold), so
    they are taken from k * (n - 1) by integer division.  A position
    that reaches n - 1 selects the last value on both sides, with the
    position plus one as weight; for k < 4 that is the case n = 1. *)
Definition interpolate (k : nat) (sorted : list float) : float :=
  match sorted with
  | [] => nan
  | _ :: _ =>
      let n := List.length sorted in
      if (4 * (n - 1) <=? k * (n - 1))%nat
      then lerp (last sorted nan) (last sorted nan) 1%float
      else lerp (nth (k * (n - 1) / 4) sorted nan)
                (nth (S (k * (n - 1) / 4)) sorted nan)
                (quarters (k * (n - 1) mod 4))
  end.

(** [values.quantile(k / 4)]: pandas drops the missing values (NaN),
    and the quantile of nothing is NaN. *)
Definition quantile64 (k : nat) (values : list float) : float :=
  interpolate k (sort64 (filter notna values)).

(** ** detect_outliers_iqr *)

Definition has_column64 (df : DataFrame64) (label : string) : bool :=
  existsb (String.eqb label) (columns64 df).

(** [df["is_outlier"] = False] *)
Definition assign_is_outlier_False64 (df : DataFrame64) : DataFrame64 :=
  mkDataFrame64 (with_column "is_outlier" (columns64 df))
                (map (fun r => mkRow64 (obs64 r) (Some false)) (rows64 df)).

(** [df["indicator_code"]] *)
Definition column_indicator_code64 (df : DataFrame64)
  : result (list string) :=
  if has_column64 df "indicator_code"
  then Ok (map (fun r => indicator_code64 (obs64 r)) (rows64 df))
  else Raise KeyError.

(** [df.loc[mask, "value"]] *)
Definition loc_value64 (df : DataFrame64) (mask : Row64 -> bool)
  : result (list float) :=
  if has_column64 df "value"
  then Ok (map (fun r => value64 (obs64 r)) (filter mask (rows64 df)))
  else Raise KeyError.

(** [df.loc[m, "is_outlier"] = True] *)
Definition loc_assign_is_outlier_True64 (df : DataFrame64)
  (m : Row64 -> bool) : DataFrame64 :=
  mkDataFrame64 (with_column "is_outlier" (columns64 df))
                (map (fun r => if m r then mkRow64 (obs64 r) (Some true)
                               else r)
                     (rows64 df)).

(** Lines 98-105: the quartiles, IQR, the two bounds and
    [(df["value"] < lower) | (df["value"] > upper)]. *)
Definition lower_bound (values : list float) : float :=
  let Q1 := quantile64 1 values in
  let Q3 := quantile64 3 values in
  let IQR := (Q3 - Q1)%float in
  (Q1 - 1.5 * IQR)%float.

Definition upper_bound (values : list float) : float :=
  let Q1 := quantile64 1 values in
  let Q3 := quantile64 3 values in
  let IQR := (Q3 - Q1)%float in
  (Q3 + 1.5 * IQR)%float.

Definition outlier_rule64 (values : list float) (v : float) : bool :=
  (v <? lower_bound values)%float || (upper_bound values <? v)%float.

(** The body of [for indicator in df["indicator_code"].unique()]. *)
Definition iqr_step64 (df : DataFrame64) (indicator : string)
  : result DataFrame64 :=
  let mask := fun r => String.eqb (indicator_code64 (obs64 r)) indicator in
  values <- loc_value64 df mask ;;
  _ <- (if has_column64 df "value" then Ok tt else Raise KeyError) ;;
  let outlier_mask := fun r => outlier_rule64 values (value64 (obs64 r)) in
  Ok (loc_assign_is_outlier_True64 df (fun r => mask r && outlier_mask r)).

Fixpoint for_indicators64 (df : DataFrame64) (indicators : list string)
  : result DataFrame64 :=
  match indicators with
  | [] => Ok df
  | indicator :: rest =>
      df' <- iqr_step64 df indicator ;; for_indicators64 df' rest
  end.

Definition detect_outliers_iqr64 (df : DataFrame64) : result DataFrame64 :=
  let df := assign_is_outlier_False64 df in
  codes <- column_indicator_code64 df ;;
  for_indicators64 df (unique codes).

(** ** What the statements speak of *)

Definition rows64_of (indicator : string) (rs : list Row64) : list Row64 :=
  filter (fun r => String.eqb (indicator_code64 (obs64 r)) indicator) rs.

Definition values64_of (indicator : string) (rs : list Row64) : list float :=
  map (fun r => value64 (obs64 r)) (rows64_of indicator rs).

Definition flag64_in (rs : list Row64) (r : Row64) : bool :=
  outlier_rule64 (values64_of (indicator_code64 (obs64 r)) rs)
                 (value64 (obs64 r)).

Definition flagged64 (df : DataFrame64) : DataFrame64 :=
  mkDataFrame64 (with_column "is_outlier" (columns64 df))
                (map (fun r => mkRow64 (obs64 r) (Some (flag64_in (rows64 df) r)))
                     (rows64 df)).

Definition partial_rows64 (seen : list string) (rs : list Row64)
  : list Row64 :=
  map (fun r =>
         mkRow64 (obs64 r)
                 (Some (existsb (String.eqb (indicator_code64 (obs64 r))) seen
                        && flag64_in rs r)))
      rs.

(** Each value is at most the next one. *)
Inductive ascending64 : list float -> Prop :=
| ascending64_nil : ascending64 []
| ascending64_one (x : float) : ascending64 [x]
| ascending64_cons (x y : float) (l : list float) :
    (x <=? y)%float = true -> ascending64 (y :: l) ->
    ascending64 (x :: y :: l).

(** The quantile [k]/4 as the specification words it: linear
    interpolation between order statistics.  With the values present
    in ascending order and the position p = (n - 1) * k / 4, it lies
    between the value at the floor of p and the next one, at the
    fraction of p; the only value of a list of one is taken on both
    sides with weight 1, and there is no quantile but NaN when no value
    is present.  The interpolation is rounded as [a + (b - a) * g] for a
    weight g below one half and as [b - (b - a) * (1 - g)] from one
    half on. *)
Definition weighted (a b g : float) : float :=
  if (g <? 0.5)%float then (a + (b - a) * g)%float
  else (b - (b - a) * (1 - g))%float.

Definition is_quantile (k : nat) (values : list float) (x : float) : Prop :=
  exists sorted,
    Permutation sorted (filter notna values)
    /\ ascending64 sorted
    /\ match sorted with
       | [] => x = nan
       | [a] => x = weighted a a 1
       | _ :: _ :: _ =>
           let p4 := (k * (List.length sorted - 1))%nat in
           exists a b,
             nth_error sorted (p4 / 4) = Some a
             /\ nth_error sorted (S (p4 / 4)) = Some b
             /\ x = weighted a b
                      (of_uint63 (Uint63.of_Z (Z.of_nat (p4 mod 4))) / 4)
       end.

(** A record of indicator [code] with value [v]. *)
Definition record64 (code : string) (v : float) : Observation64 :=
  mkObservation64 (JStr "United States") (JStr "US") "G7" code code 2010 v.

End Binary64.

Module Pass64.

Import Binary64.

#[local] Arguments String.eqb : simpl never.

Lemma values64_of_map (g : Row64 -> Row64) (indicator : string)
      (rs : list Row64) :
  (forall r, obs64 (g r) = obs64 r) ->
  values64_of indicator (map g rs) = values64_of indicator rs.
Proof.
  intros Hg. unfold values64_of, rows64_of.
  induction rs as [|r rs IH]; [reflexivity|].
  simpl. rewrite Hg.
  destruct (String.eqb (indicator_code64 (obs64 r)) indicator); simpl.
  - now rewrite Hg, IH.
  - exact IH.
Qed.

Lemma iqr_step64_partial (cols : list string) (rs : list Row64)
      (seen : list string) (a : string) :
  existsb (String.eqb "is_outlier") cols = true ->
  iqr_step64 (mkDataFrame64 cols (partial_rows64 seen rs)) a
  = if existsb (String.eqb "value") cols
    then Ok (mkDataFrame64 cols (partial_rows64 (a :: seen) rs))
    else Raise KeyError.
Proof.
  intros Hcol. unfold iqr_step64, loc_value64, has_column64. simpl.
  destruct (existsb (String.eqb "value") cols); [|reflexivity].
  simpl. unfold loc_assign_is_outlier_True64, with_column. simpl.
  rewrite Hcol. f_equal. f_equal.
  unfold partial_rows64. rewrite map_map.
  apply map_ext. intros r. simpl.
  match goal with
  | |- context [outlier_rule64 ?v _] =>
      replace v with (values64_of a rs)
        by (symmetry; apply (values64_of_map _ a rs); reflexivity)
  end.
  unfold flag64_in.
  destruct (String.eqb_spec (indicator_code64 (obs64 r)) a) as [->|Hne]; simpl.
  - destruct (outlier_rule64 (values64_of a rs) (value64 (obs64 r))).
    + reflexivity.
    + now rewrite andb_false_r.
  - reflexivity.
Qed.

Lemma for_indicators64_partial (cols : list string) (rs : list Row64)
      (todo seen : list string) :
  existsb (String.eqb "is_outlier") cols = true ->
  for_indicators64 (mkDataFrame64 cols (partial_rows64 seen rs)) todo
  = if existsb (String.eqb "value") cols || (List.length todo =? 0)%nat
    then Ok (mkDataFrame64 cols (partial_rows64 (rev todo ++ seen) rs))
    else Raise KeyError.
Proof.
  intros Hcol. revert seen.
  induction todo as [|a todo IH]; intros seen; simpl.
  - now rewrite orb_true_r.
  - rewrite iqr_step64_partial by exact Hcol.
    destruct (existsb (String.eqb "value") cols) eqn:Hv; simpl; [|reflexivity].
    rewrite IH. simpl. now rewrite <- app_assoc.
Qed.

Lemma partial_rows64_all (seen : list string) (rs : list Row64) :
  (forall r, In r rs -> In (indicator_code64 (obs64 r)) seen) ->
  partial_rows64 seen rs
  = map (fun r => mkRow64 (obs64 r) (Some (flag64_in rs r))) rs.
Proof.
  intros H. unfold partial_rows64. apply map_ext_in. intros r Hr.
  assert (E : existsb (String.eqb (indicator_code64 (obs64 r))) seen = true).
  { apply existsb_exists. exists (indicator_code64 (obs64 r)).
    split; [now apply H | apply String.eqb_refl]. }
  now rewrite E.
Qed.

(** The pass on the frame built from at least one record. *)
Lemma detect_outliers_iqr64_records (records : list Observation64) :
  records <> [] ->
  detect_outliers_iqr64 (pd_DataFrame64 records)
  = Ok (flagged64 (pd_DataFrame64 records)).
Proof.
  intros Hne.
  destruct records as [|o records]; [congruence|].
  set (rs := rows64 (pd_DataFrame64 (o :: records))).
  unfold detect_outliers_iqr64, column_indicator_code64, has_column64,
    assign_is_outlier_False64.
  cbn [columns64 pd_DataFrame64].
  change (existsb (String.eqb "indicator_code")
                  (with_column "is_outlier" observation_columns)) with true.
  cbn [bind rows64]. fold rs.
  change (map (fun r => mkRow64 (obs64 r) (Some false)) rs)
    with (partial_rows64 [] rs).
  rewrite for_indicators64_partial by reflexivity.
  change (existsb (String.eqb "value")
                  (with_column "is_outlier" observation_columns)) with true.
  cbn [orb]. unfold flagged64. cbn [columns64 pd_DataFrame64 rows64].
  fold rs. f_equal. f_equal.
  apply partial_rows64_all. intros r Hr.
  rewrite app_nil_r, <- in_rev. apply Detector.in_unique.
  unfold partial_rows64. rewrite map_map. cbn [obs64].
  apply in_map_iff. now exists r.
Qed.

End Pass64.

(* ================================================================== *)
(** * Facts of binary64 arithmetic *)

Module Float64.

Import Binary64.

Lemma SFcompare_antisym (a b : spec_float) :
  SFcompare b a = option_map CompOpp (SFcompare a b).
Proof.
  destruct a as [sa|sa| |sa ma ea], b as [sb|sb| |sb mb eb]; simpl;
    try reflexivity;
    try (destruct sa; reflexivity);
    try (destruct sb; reflexivity);
    try (destruct sa, sb; reflexivity).
  destruct sa, sb; simpl; try reflexivity.
  - rewrite (Z.compare_antisym ea eb).
    destruct (ea ?= eb)%Z; simpl; try reflexivity.
    f_equal. f_equal.
    change (Pos.compare_cont Eq mb ma) with (Pos.compare mb ma).
    change (Pos.compare_cont Eq ma mb) with (Pos.compare ma mb).
    apply Pos.compare_antisym.
  - rewrite (Z.compare_antisym ea eb).
    destruct (ea ?= eb)%Z; simpl; try reflexivity.
    f_equal.
    change (Pos.compare_cont Eq mb ma) with (Pos.compare mb ma).
    change (Pos.compare_cont Eq ma mb) with (Pos.compare ma mb).
    apply Pos.compare_antisym.
Qed.

Lemma SFcompare_refl (a : spec_float) :
  a <> S754_nan -> SFcompare a a = Some Eq.
Proof.
  destruct a as [s|s| |s m e]; simpl; intros H; try reflexivity.
  - now destruct s.
  - congruence.
  - destruct s; rewrite Z.compare_refl;
      change (Pos.compare_cont Eq m m) with (Pos.compare m m);
      now rewrite Pos.compare_refl.
Qed.

(** Two numbers that compare equal are compared alike with any third. *)
Lemma SFcompare_Eq_compat (a b c : spec_float) :
  SFcompare a b = Some Eq ->
  SFcompare c a = SFcompare c b /\ SFcompare a c = SFcompare b c.
Proof.
  intros H.
  destruct a as [sa|sa| |sa ma ea], b as [sb|sb| |sb mb eb];
    simpl in H; try discriminate;
    try (destruct sa; discriminate);
    try (destruct sb; discriminate).
  - split; destruct c; reflexivity.
  - destruct sa, sb; try discriminate; split; reflexivity.
  - assert (E : sa = sb /\ ea = eb /\ ma = mb).
    { destruct sa, sb; try discriminate;
        destruct (ea ?= eb)%Z eqn:Ee; try discriminate;
        apply Z.compare_eq in Ee;
        change (Pos.compare_cont Eq ma mb) with (Pos.compare ma mb) in H;
        destruct (ma ?= mb)%positive eqn:Em; try discriminate;
        apply Pos.compare_eq in Em; now repeat split. }
    destruct E as [-> [-> ->]]. split; reflexivity.
Qed.

Lemma notna_Prim2SF (x : float) :
  notna x = true <-> Prim2SF x <> S754_nan.
Proof.
  unfold notna, is_nan. rewrite negb_involutive, eqb_spec. unfold SFeqb.
  split.
  - intros H E. rewrite E in H. discriminate.
  - intros H. now rewrite SFcompare_refl.
Qed.

Lemma ltb_irrefl (x : float) : (x <? x)%float = false.
Proof.
  rewrite ltb_spec. unfold SFltb.
  destruct (Prim2SF x) as [s|s| |s m e] eqn:E.
  - reflexivity.
  - now destruct s.
  - reflexivity.
  - rewrite SFcompare_refl by discriminate. reflexivity.
Qed.

Lemma leb_total (x y : float) :
  notna x = true -> notna y = true ->
  (x <=? y)%float = false -> (y <=? x)%float = true.
Proof.
  rewrite !notna_Prim2SF, !leb_spec. unfold SFleb.
  intros Hx Hy. rewrite (SFcompare_antisym (Prim2SF x) (Prim2SF y)).
  destruct (SFcompare (Prim2SF x) (Prim2SF y)) as [[| |]|] eqn:E;
    simpl; try discriminate; try reflexivity.
  exfalso.
  destruct (Prim2SF x), (Prim2SF y); simpl in E; try discriminate;
    congruence.
Qed.

Lemma eqb_not_ltb (x y : float) :
  (x =? y)%float = true -> (x <? y)%float = false.
Proof.
  rewrite eqb_spec, ltb_spec. unfold SFeqb, SFltb.
  now destruct (SFcompare (Prim2SF x) (Prim2SF y)) as [[| |]|].
Qed.

Lemma eqb_not_gtb (x y : float) :
  (x =? y)%float = true -> (y <? x)%float = false.
Proof.
  rewrite eqb_spec, ltb_spec. unfold SFeqb, SFltb.
  rewrite (SFcompare_antisym (Prim2SF x) (Prim2SF y)).
  now destruct (SFcompare (Prim2SF x) (Prim2SF y)) as [[| |]|].
Qed.

Lemma eqb_ltb_compat (v w u : float) :
  (v =? w)%float = true ->
  (u <? v)%float = (u <? w)%float /\ (v <? u)%float = (w <? u)%float.
Proof.
  rewrite eqb_spec, !ltb_spec. unfold SFeqb, SFltb. intros H.
  destruct (SFcompare (Prim2SF v) (Prim2SF w)) as [[| |]|] eqn:E;
    try discriminate.
  destruct (SFcompare_Eq_compat _ _ (Prim2SF u) E) as [-> ->].
  now split.
Qed.

(** *** A finite value, the differences and the sums that are exact *)

Lemma Prim2SF_zero : Prim2SF zero = S754_zero false.
Proof. reflexivity. Qed.

Lemma sub_self (x : float) (s : bool) (m : positive) (e : Z) :
  Prim2SF x = S754_finite s m e -> (x - x)%float = zero.
Proof.
  intros H. apply Prim2SF_inj. rewrite sub_spec, H, Prim2SF_zero.
  unfold SF64sub, SFsub. cbv zeta. now rewrite Z.sub_diag.
Qed.

Lemma sub_zero (x : float) (s : bool) (m : positive) (e : Z) :
  Prim2SF x = S754_finite s m e -> (x - zero)%float = x.
Proof.
  intros H. apply Prim2SF_inj. rewrite sub_spec, H, Prim2SF_zero.
  reflexivity.
Qed.

Lemma add_zero (x : float) (s : bool) (m : positive) (e : Z) :
  Prim2SF x = S754_finite s m e -> (x + zero)%float = x.
Proof.
  intros H. apply Prim2SF_inj. rewrite add_spec, H, Prim2SF_zero.
  reflexivity.
Qed.

Lemma notna_finite (x : float) (s : bool) (m : positive) (e : Z) :
  Prim2SF x = S754_finite s m e -> notna x = true.
Proof. intros H. apply notna_Prim2SF. rewrite H. discriminate. Qed.

Lemma eqb_refl_finite (x : float) (s : bool) (m : positive) (e : Z) :
  Prim2SF x = S754_finite s m e -> (x =? x)%float = true.
Proof.
  intros H. rewrite eqb_spec. unfold SFeqb.
  rewrite SFcompare_refl; [reflexivity | rewrite H; discriminate].
Qed.

End Float64.

(* ================================================================== *)
(** * The quartiles of the pass are the interpolated order statistics *)

Module Quartiles64.

Import Binary64.

Lemma insert64_Permutation (x : float) (l : list float) :
  Permutation (insert64 x l) (x :: l).
Proof.
  induction l as [|y l IH]; simpl.
  - apply Permutation_refl.
  - destruct (x <=? y)%float.
    + apply Permutation_refl.
    + apply Permutation_trans with (y :: x :: l).
      * now apply perm_skip.
      * apply perm_swap.
Qed.

Lemma sort64_Permutation (l : list float) : Permutation (sort64 l) l.
Proof.
  induction l as [|x l IH]; simpl.
  - apply perm_nil.
  - apply Permutation_trans with (x :: sort64 l).
    + apply insert64_Permutation.
    + now apply perm_skip.
Qed.

Lemma insert64_ascending (x : float) (l : list float) :
  notna x = true -> Forall (fun v => notna v = true) l ->
  ascending64 l -> ascending64 (insert64 x l).
Proof.
  intros Hx Hl Hasc.
  induction Hasc as [|y|y z l Hyz Hasc IH]; simpl.
  - constructor.
  - destruct (x <=? y)%float eqn:E.
    + constructor; [exact E | constructor].
    + constructor; [|constructor].
      apply Float64.leb_total; [exact Hx | now inversion Hl | exact E].
  - destruct (x <=? y)%float eqn:E.
    + constructor; [exact E|]. now constructor.
    + assert (Hy : notna y = true) by now inversion Hl.
      assert (Hl' : Forall (fun v => notna v = true) (z :: l))
        by now inversion Hl.
      specialize (IH Hl'). simpl in IH.
      destruct (x <=? z)%float eqn:E'.
      * constructor; [|exact IH].
        now apply Float64.leb_total.
      * constructor; [exact Hyz | exact IH].
Qed.

Lemma sort64_notna (l : list float) :
  Forall (fun v => notna v = true) l ->
  Forall (fun v => notna v = true) (sort64 l).
Proof.
  intros H. rewrite Forall_forall in *. intros v Hv. apply H.
  now apply (Permutation_in _ (sort64_Permutation l)).
Qed.

Lemma sort64_ascending (l : list float) :
  Forall (fun v => notna v = true) l -> ascending64 (sort64 l).
Proof.
  induction l as [|x l IH]; intros H; simpl.
  - constructor.
  - inversion H as [|? ? Hx Hl]; subst.
    apply insert64_ascending; [exact Hx | now apply sort64_notna | now apply IH].
Qed.

Lemma filter_notna (values : list float) :
  Forall (fun v => notna v = true) (filter notna values).
Proof.
  apply Forall_forall. intros v Hv. now apply filter_In in Hv.
Qed.

Lemma lerp_weighted (a b : float) (r : nat) :
  (r < 4)%nat ->
  lerp a b (quarters r)
  = weighted a b (of_uint63 (Uint63.of_Z (Z.of_nat r)) / 4).
Proof.
  intros Hr.
  destruct r as [|[|[|[|r]]]]; try lia; reflexivity.
Qed.

(** What [values.quantile(k / 4)] returns, for a quartile, is the
    linear interpolation between order statistics of the values
    present. *)
Lemma quantile64_is_quantile (k : nat) (values : list float) :
  (k < 4)%nat -> is_quantile k values (quantile64 k values).
Proof.
  intros Hk.
  exists (sort64 (filter notna values)). split; [|split].
  - apply sort64_Permutation.
  - apply sort64_ascending, filter_notna.
  - unfold quantile64.
    destruct (sort64 (filter notna values)) as [|a [|b l]] eqn:E.
    + reflexivity.
    + unfold interpolate. cbn [List.length Nat.sub].
      rewrite Nat.mul_0_r. reflexivity.
    + set (sorted := a :: b :: l).
      assert (Hn : (2 <= List.length sorted)%nat) by (simpl; lia).
      cbv zeta. unfold interpolate. fold sorted.
      change (match sorted with [] => nan | _ :: _ => ?u end) with u.
      cbv zeta.
      set (n := List.length sorted) in *.
      assert (Hlt : (k * (n - 1) / 4 < n - 1)%nat).
      { apply Nat.Div0.div_lt_upper_bound. nia. }
      destruct (4 * (n - 1) <=? k * (n - 1))%nat eqn:Hle.
      { apply Nat.leb_le in Hle. nia. }
      exists (nth (k * (n - 1) / 4) sorted nan),
             (nth (S (k * (n - 1) / 4)) sorted nan).
      split; [apply nth_error_nth'; fold n; lia|].
      split; [apply nth_error_nth'; fold n; lia|].
      apply lerp_weighted. apply Nat.mod_upper_bound. discriminate.
Qed.

(** *** One value *)

Lemma finite_cases (v : float) :
  is_finite v = true ->
  (exists s, Prim2SF v = S754_zero s)
  \/ (exists s m e, Prim2SF v = S754_finite s m e).
Proof.
  unfold is_finite, is_nan, is_infinity.
  rewrite !eqb_spec, abs_spec.
  destruct (Prim2SF v) as [s|s| |s m e] eqn:E.
  - intros _. left. now exists s.
  - intros H. exfalso. simpl in H. destruct s; discriminate.
  - intros H. discriminate.
  - intros _. right. now exists s, m, e.
Qed.

Lemma value_cases (v : float) :
  v = zero \/ v = neg_zero \/ v = infinity \/ v = neg_infinity \/ v = nan
  \/ exists s m e, Prim2SF v = S754_finite s m e.
Proof.
  destruct (Prim2SF v) as [s|s| |s m e] eqn:E.
  - rewrite <- (SF2Prim_Prim2SF v), E. destruct s; auto.
  - rewrite <- (SF2Prim_Prim2SF v), E. destruct s; auto.
  - rewrite <- (SF2Prim_Prim2SF v), E. auto 6.
  - do 5 right. now exists s, m, e.
Qed.

Lemma lerp_same (v : float) (s : bool) (m : positive) (e : Z) :
  Prim2SF v = S754_finite s m e -> lerp v v 1 = v.
Proof.
  intros H. unfold lerp. cbv zeta.
  change (0.5 <=? 1)%float with true. cbv iota.
  change (1 - 1)%float with zero.
  rewrite (Float64.sub_self v s m e H).
  change (zero * zero)%float with zero.
  apply (Float64.sub_zero v s m e H).
Qed.

Lemma quantile64_one (k : nat) (v : float) :
  notna v = true -> quantile64 k [v] = lerp v v 1.
Proof.
  intros H. unfold quantile64. simpl. rewrite H. reflexivity.
Qed.

Lemma quartiles_of_one (k : nat) (v : float) (s : bool) (m : positive) (e : Z) :
  Prim2SF v = S754_finite s m e -> quantile64 k [v] = v.
Proof.
  intros H. rewrite quantile64_one by apply (Float64.notna_finite v s m e H).
  apply (lerp_same v s m e H).
Qed.

Lemma bounds_of_one (v : float) (s : bool) (m : positive) (e : Z) :
  Prim2SF v = S754_finite s m e ->
  lower_bound [v] = v /\ upper_bound [v] = v.
Proof.
  intros H. unfold lower_bound, upper_bound. cbv zeta.
  rewrite !(quartiles_of_one _ v s m e H).
  rewrite (Float64.sub_self v s m e H).
  change (1.5 * zero)%float with zero.
  split.
  - apply (Float64.sub_zero v s m e H).
  - apply (Float64.add_zero v s m e H).
Qed.

(** The one value of an indicator is never beyond the two bounds. *)
Lemma one_value_unflagged (v : float) : outlier_rule64 [v] v = false.
Proof.
  destruct (value_cases v) as [->|[->|[->|[->|[->|[s [m [e H]]]]]]]];
    try (vm_compute; reflexivity).
  unfold outlier_rule64.
  destruct (bounds_of_one v s m e H) as [-> ->].
  now rewrite Float64.ltb_irrefl.
Qed.

(** For a finite value, both quartiles and both bounds are the value
    and the interquartile range is zero (as binary64 compares them: the
    upper bound of -0.0 is 0.0). *)
Lemma one_value_quartiles (v : float) :
  is_finite v = true ->
  (quantile64 1 [v] =? v)%float = true
  /\ (quantile64 3 [v] =? v)%float = true
  /\ (quantile64 3 [v] - quantile64 1 [v] =? 0)%float = true
  /\ (lower_bound [v] =? v)%float = true
  /\ (upper_bound [v] =? v)%float = true.
Proof.
  intros Hf.
  destruct (finite_cases v Hf) as [[s H]|[s [m [e H]]]].
  - rewrite <- (SF2Prim_Prim2SF v), H.
    destruct s; vm_compute; repeat split; reflexivity.
  - destruct (bounds_of_one v s m e H) as [-> ->].
    rewrite !(quartiles_of_one _ v s m e H).
    rewrite (Float64.sub_self v s m e H).
    rewrite (Float64.eqb_refl_finite v s m e H).
    repeat split; reflexivity.
Qed.

End Quartiles64.

(* ================================================================== *)
(** * Strict comparisons against the bounds (C5) *)

Import Binary64.

(** The two clauses of C5 that speak of equality, read on the frame the
    pass returns: a value that equals one of its indicator's bounds is
    not flagged ... *)
Definition ties_unflagged : Prop :=
  forall records df r,
    detect_outliers_iqr64 (pd_DataFrame64 records) = Ok df ->
    In r (rows64 df) ->
    let values := values64_of (indicator_code64 (obs64 r)) (rows64 df) in
    let v := value64 (obs64 r) in
    (v =? lower_bound values)%float = true
    \/ (v =? upper_bound values)%float = true ->
    is_outlier64 r = Some false.

(** ... and the one record of an indicator has its value [V] as both
    quartiles and both bounds, with an interquartile range of zero. *)
Definition one_record_bounds : Prop :=
  forall o df,
    detect_outliers_iqr64 (pd_DataFrame64 [o]) = Ok df ->
    let V := value64 o in
    (quantile64 1 [V] =? V)%float = true
    /\ (quantile64 3 [V] =? V)%float = true
    /\ (quantile64 3 [V] - quantile64 1 [V] =? 0)%float = true
    /\ (lower_bound [V] =? V)%float = true
    /\ (upper_bound [V] =? V)%float = true.

(** Six values of one indicator whose first quartile overflows: the
    difference of the order statistics -1e308 and 1e308 is infinite. *)
Definition overflow_values : list float :=
  [(-1e308)%float; (-1e308)%float; 1e308%float; 1e308%float; 1e308%float;
   infinity].

Definition overflow_records : list Observation64 :=
  map (record64 "A") overflow_values.

(** Four values on which the rounding decides: in exact arithmetic the
    bounds would be 1.2 and 1.8, the least and the greatest value, and
    no record would be flagged; in binary64 the bounds fall just inside
    and both are flagged. *)
Definition near_values : list float :=
  [1.8%float; 1.2%float; 1.5%float; 1.5%float].

Definition near_records : list Observation64 :=
  map (record64 "A") near_values.

Example near_bounds :
  quantile64 1 near_values = 1.425%float
  /\ quantile64 3 near_values = 1.575%float
  /\ lower_bound near_values = 1.2000000000000002%float
  /\ upper_bound near_values = 1.7999999999999998%float
  /\ map (outlier_rule64 near_values) near_values = [true; true; false; false].
Proof. vm_compute. repeat split; reflexivity. Qed.

(** C5, as stated, does not hold of binary64 values.  On the six values
    above Q1 is infinity and Q3 is 1e308, so the lower bound is infinity
    and the upper bound minus infinity: the record of value infinity
    equals the lower bound and is flagged, being above the upper bound.
    And the quartiles of the single value infinity are NaN, not the
    value (the interpolation subtracts infinity from itself). *)
Lemma strict_bounds_as_stated_fail :
  (quantile64 1 overflow_values = infinity
   /\ quantile64 3 overflow_values = 1e308%float
   /\ lower_bound overflow_values = infinity
   /\ upper_bound overflow_values = neg_infinity
   /\ (exists df,
         detect_outliers_iqr64 (pd_DataFrame64 overflow_records) = Ok df
         /\ In (mkRow64 (record64 "A" infinity) (Some true)) (rows64 df)))
  /\ ~ ties_unflagged
  /\ quantile64 1 [infinity] = nan
  /\ ~ one_record_bounds.
Proof.
  assert (Hdf : detect_outliers_iqr64 (pd_DataFrame64 overflow_records)
                = Ok (flagged64 (pd_DataFrame64 overflow_records))).
  { apply Pass64.detect_outliers_iqr64_records. discriminate. }
  assert (Hin : In (mkRow64 (record64 "A" infinity) (Some true))
                   (rows64 (flagged64 (pd_DataFrame64 overflow_records)))).
  { vm_compute. do 5 right. left. reflexivity. }
  split; [|split; [|split]].
  - repeat split; try (vm_compute; reflexivity).
    eexists. split; [exact Hdf | exact Hin].
  - intros H.
    specialize (H overflow_records _ _ Hdf Hin).
    assert (E : Some true = Some false).
    { apply H. left. vm_compute. reflexivity. }
    discriminate.
  - vm_compute. reflexivity.
  - intros H.
    specialize (H (record64 "A" infinity) _
                  (Pass64.detect_outliers_iqr64_records
                     [record64 "A" infinity] ltac:(discriminate))).
    destruct H as [H _]. vm_compute in H. discriminate.
Qed.

(** C5, amended: on every non-empty set of records the pass returns the
    records with their flags, and for each record there are a Q1 and a
    Q3, the linear interpolations between order statistics of the values
    (NaN left out) of the record's indicator at the first and the third
    quarter, such that with IQR = Q3 - Q1, lower = Q1 - 1.5 * IQR and
    upper = Q3 + 1.5 * IQR, all computed in binary64:
    - the record is flagged exactly when its value is below [lower] or
      above [upper], and left unflagged exactly when it is neither;
    - a value equal to a bound is not beyond that bound, and it is left
      unflagged whenever [upper] is not below [lower];
    - the only record of its indicator is never flagged, and when its
      value V is finite, Q1, Q3, [lower] and [upper] equal V and IQR
      equals zero. *)
Theorem strict_bounds_binary64 (records : list Observation64) :
  records <> [] ->
  exists df,
    detect_outliers_iqr64 (pd_DataFrame64 records) = Ok df
    /\ map obs64 (rows64 df) = records
    /\ forall r, In r (rows64 df) ->
       let values := values64_of (indicator_code64 (obs64 r)) (rows64 df) in
       let v := value64 (obs64 r) in
       exists Q1 Q3 : float,
         is_quantile 1 values Q1
         /\ is_quantile 3 values Q3
         /\ let IQR := (Q3 - Q1)%float in
            let lower := (Q1 - 1.5 * IQR)%float in
            let upper := (Q3 + 1.5 * IQR)%float in
            (is_outlier64 r = Some true
             <-> (v <? lower)%float = true \/ (upper <? v)%float = true)
            /\ (is_outlier64 r = Some false
                <-> (v <? lower)%float = false /\ (upper <? v)%float = false)
            /\ ((v =? lower)%float = true -> (v <? lower)%float = false)
            /\ ((v =? upper)%float = true -> (upper <? v)%float = false)
            /\ ((v =? lower)%float = true \/ (v =? upper)%float = true ->
                (upper <? lower)%float = false ->
                is_outlier64 r = Some false)
            /\ (List.length values = 1%nat ->
                is_outlier64 r = Some false
                /\ (is_finite v = true ->
                    (Q1 =? v)%float = true
                    /\ (Q3 =? v)%float = true
                    /\ (IQR =? 0)%float = true
                    /\ (lower =? v)%float = true
                    /\ (upper =? v)%float = true)).
Proof.
  intros Hne.
  exists (flagged64 (pd_DataFrame64 records)).
  split; [now apply Pass64.detect_outliers_iqr64_records|].
  split.
  { unfold flagged64, pd_DataFrame64. cbn [rows64].
    rewrite !map_map. cbn [obs64]. apply map_id. }
  intros r Hr. cbv zeta.
  set (rs := rows64 (pd_DataFrame64 records)).
  assert (Hvs : forall a,
             values64_of a (rows64 (flagged64 (pd_DataFrame64 records)))
             = values64_of a rs).
  { intros a. unfold flagged64. cbn [rows64]. fold rs.
    apply (Pass64.values64_of_map _ a rs). reflexivity. }
  rewrite Hvs.
  unfold flagged64 in Hr. cbn [rows64] in Hr. fold rs in Hr.
  apply in_map_iff in Hr. destruct Hr as [r0 [<- Hr0]]. cbn [obs64 is_outlier64].
  set (values := values64_of (indicator_code64 (obs64 r0)) rs).
  set (v := value64 (obs64 r0)).
  exists (quantile64 1 values), (quantile64 3 values).
  split; [apply Quartiles64.quantile64_is_quantile; lia|].
  split; [apply Quartiles64.quantile64_is_quantile; lia|].
  assert (Hflag : flag64_in rs r0
                  = (v <? lower_bound values)%float
                    || (upper_bound values <? v)%float) by reflexivity.
  change (quantile64 1 values
          - 1.5 * (quantile64 3 values - quantile64 1 values))%float
    with (lower_bound values).
  change (quantile64 3 values
          + 1.5 * (quantile64 3 values - quantile64 1 values))%float
    with (upper_bound values).
  rewrite Hflag.
  split; [|split; [|split; [|split; [|split]]]].
  - destruct (v <? lower_bound values)%float,
             (upper_bound values <? v)%float; simpl;
      split; intros H; try discriminate; auto; destruct H; discriminate.
  - destruct (v <? lower_bound values)%float,
             (upper_bound values <? v)%float; simpl;
      split; intros H; try discriminate; auto; destruct H; discriminate.
  - apply Float64.eqb_not_ltb.
  - apply Float64.eqb_not_gtb.
  - intros [H|H] Hb.
    + destruct (Float64.eqb_ltb_compat _ _ (upper_bound values) H) as [E _].
      rewrite (Float64.eqb_not_ltb _ _ H), E, Hb. reflexivity.
    + destruct (Float64.eqb_ltb_compat _ _ (lower_bound values) H) as [_ E].
      rewrite (Float64.eqb_not_gtb _ _ H), E, Hb. reflexivity.
  - intros Hlen.
    assert (Hv : In v values).
    { unfold values, values64_of, rows64_of.
      apply (in_map (fun r => value64 (obs64 r))).
      apply filter_In. split; [exact Hr0 | apply String.eqb_refl]. }
    assert (E : values = [v]).
    { destruct values as [|x [|y l]]; try discriminate.
      destruct Hv as [->|[]]. reflexivity. }
    rewrite E. split.
    + f_equal. apply Quartiles64.one_value_unflagged.
    + apply Quartiles64.one_value_quartiles.
Qed.

Lemma strict_bounds_binary64_witness :
  near_records <> []
  /\ exists df,
       detect_outliers_iqr64 (pd_DataFrame64 near_records) = Ok df
       /\ map obs64 (rows64 df) = near_records
       /\ forall r, In r (rows64 df) ->
          let values := values64_of (indicator_code64 (obs64 r)) (rows64 df) in
          let v := value64 (obs64 r) in
          exists Q1 Q3 : float,
            is_quantile 1 values Q1
            /\ is_quantile 3 values Q3
            /\ let IQR := (Q3 - Q1)%float in
               let lower := (Q1 - 1.5 * IQR)%float in
               let upper := (Q3 + 1.5 * IQR)%float in
               (is_outlier64 r = Some true
                <-> (v <? lower)%float = true \/ (upper <? v)%float = true)
               /\ (is_outlier64 r = Some false
                   <-> (v <? lower)%float = false
                       /\ (upper <? v)%float = false)
               /\ ((v =? lower)%float = true -> (v <? lower)%float = false)
               /\ ((v =? upper)%float = true -> (upper <? v)%float = false)
               /\ ((v =? lower)%float = true \/ (v =? upper)%float = true ->
                   (upper <? lower)%float = false ->
                   is_outlier64 r = Some false)
               /\ (List.length values = 1%nat ->
                   is_outlier64 r = Some false
                   /\ (is_finite v = true ->
                       (Q1 =? v)%float = true
                       /\ (Q3 =? v)%float = true
                       /\ (IQR =? 0)%float = true
                       /\ (lower =? v)%float = true
                       /\ (upper =? v)%float = true)).
Proof.
  assert (H : near_records <> []) by (vm_compute; discriminate).
  split; [exact H | exact (strict_bounds_binary64 near_records H)].
Defined.

(** The ten values of the specification's example in binary64: every
    step is exact, the bounds are 9.375 and 16.375 and only 102 is
    beyond them, as in the model over the rationals. *)
Example ten_values_bounds :
  let values :=
    [10%float; 12%float; 12%float; 13%float; 12%float; 11%float; 14%float;
     13%float; 15%float; 102%float] in
  quantile64 1 values = 12%float
  /\ quantile64 3 values = 13.75%float
  /\ lower_bound values = 9.375%float
  /\ upper_bound values = 16.375%float
  /\ map (outlier_rule64 values) values
     = [false; false; false; false; false; false; false; false; false; true].
Proof. vm_compute. repeat split; reflexivity. Qed.
